(** * SSR scaffold: Express dispatcher, render entry point, routes and query layer

    A shallow embedding of the repository's TypeScript sources:

    - [server.ts]                    the Express application and its catch-all SSR handler
    - [src/entry-server.tsx]         [render], the server-side rendering entry point
    - [src/router.tsx]               [getRouter], one QueryClient per router
    - [src/routes/__root.tsx]        the root layout
    - [src/routes/index.tsx]         the home page
    - [src/routes/repos/$username.tsx]  [userReposQuery], its loader and [ReposPage]

    JavaScript strings are modelled as [string]; every token the program
    searches for is ASCII, so that searching bytes and searching UTF-16 code
    units agree.  Asynchronous code is modelled in a state-and-exception monad:
    an [await] is a bind, a rejected promise is a [Throw]. *)

From Stdlib Require Import ZArith Lia Ascii String List Bool DecimalString.
From stdpp Require Import base option list strings gmap.

Local Open Scope Z_scope.

(** String concatenation computes on literals. *)
#[local] Arguments String.append !s1 s2 : simpl nomatch.

(* ===================================================================== *)
(** * Part I: definitions                                                 *)
(* ===================================================================== *)

(** ** JavaScript strings *)

Module JsString.

(** [s.startsWith(p)] *)
Fixpoint startsWith (p s : string) : bool :=
  match p, s with
  | EmptyString, _ => true
  | String a p', String b s' => if Ascii.eqb a b then startsWith p' s' else false
  | String _ _, EmptyString => false
  end.

(** [s.slice(n)] for [0 <= n] *)
Fixpoint drop (n : nat) (s : string) : string :=
  match n, s with
  | O, _ => s
  | S n', String _ s' => drop n' s'
  | S _, EmptyString => EmptyString
  end.

(** The split of [s] around the first occurrence of [needle]:
    [s.indexOf(needle)] together with [s.substring(0, pos)] and
    [s.substring(pos + needle.length)]. *)
Fixpoint splitFirst (needle s : string) : option (string * string) :=
  if startsWith needle s then Some (EmptyString, drop (String.length needle) s)
  else match s with
       | EmptyString => None
       | String c s' =>
           match splitFirst needle s' with
           | Some (before, after) => Some (String c before, after)
           | None => None
           end
       end.

(** [s.includes(needle)] *)
Definition includes (needle s : string) : bool :=
  match splitFirst needle s with Some _ => true | None => false end.

(** [needle] occurs in [s] *)
Definition Occurs (needle s : string) : Prop :=
  exists before after, s = before +:+ needle +:+ after.

(** ECMAScript [GetSubstitution] for a string pattern (no captures): in the
    replacement text [$$] stands for a dollar sign, [$&] for the matched
    text, [$`] for the text before the match and [$'] for the text after
    it; every other character, a [$] followed by anything else included,
    is copied. *)
Fixpoint GetSubstitution (matched before after replacement : string) : string :=
  match replacement with
  | EmptyString => EmptyString
  | String c rest =>
      if Ascii.eqb c "$" then
        match rest with
        | String d rest' =>
            if Ascii.eqb d "$" then String "$" (GetSubstitution matched before after rest')
            else if Ascii.eqb d "&" then matched +:+ GetSubstitution matched before after rest'
            else if Ascii.eqb d "`" then before +:+ GetSubstitution matched before after rest'
            else if Ascii.eqb d "'" then after +:+ GetSubstitution matched before after rest'
            else String c (GetSubstitution matched before after rest)
        | EmptyString => String c EmptyString
        end
      else String c (GetSubstitution matched before after rest)
  end.

(** [s.replace(pattern, replacement)] with a string pattern: only the
    first occurrence is replaced, and [s] is returned unchanged when the
    pattern does not occur. *)
Definition replace (s pattern replacement : string) : string :=
  match splitFirst pattern s with
  | Some (before, after) =>
      before +:+ GetSubstitution pattern before after replacement +:+ after
  | None => s
  end.

(** A replacement text without any of the four special patterns. *)
Fixpoint plainReplacement (replacement : string) : bool :=
  match replacement with
  | EmptyString => true
  | String c rest =>
      if Ascii.eqb c "$" then
        match rest with
        | String d _ =>
            negb (Ascii.eqb d "$" || Ascii.eqb d "&" || Ascii.eqb d "`" || Ascii.eqb d "'")
            && plainReplacement rest
        | EmptyString => true
        end
      else plainReplacement rest
  end.

(** First and last character *)
Definition firstChar (s : string) : option ascii :=
  match s with String c _ => Some c | EmptyString => None end.

Fixpoint lastChar (s : string) : option ascii :=
  match s with
  | EmptyString => None
  | String c EmptyString => Some c
  | String _ s' => lastChar s'
  end.

(** Whether the character [c] occurs in [s] *)
Fixpoint hasChar (c : ascii) (s : string) : bool :=
  match s with
  | EmptyString => false
  | String a s' => Ascii.eqb a c || hasChar c s'
  end.

(** Whether [c] occurs in [s] nowhere but, possibly, at its end *)
Fixpoint onlyAtEnd (c : ascii) (s : string) : bool :=
  match s with
  | EmptyString => true
  | String _ EmptyString => true
  | String a s' => negb (Ascii.eqb a c) && onlyAtEnd c s'
  end.

(** [String(n)] for a non-negative integer *)
Definition ofNat (n : nat) : string := NilZero.string_of_uint (Nat.to_uint n).

End JsString.

(** ** Exceptions and completions *)

(** An [Error] instance: its [name], [message] and the engine's [stack] text. *)
Record JsError := { errorName : string; message : string; stack : string }.

(** What a [throw] (or a rejected promise) carries: an [Error] instance, or
    any other value, represented by its [String(value)] form. *)
Inductive Thrown :=
| ThrownError (e : JsError)
| ThrownValue (repr : string).

Inductive Completion (A : Type) :=
| Normal (a : A)
| Throw (t : Thrown).
Arguments Normal {A} a.
Arguments Throw {A} t.

(** [error instanceof Error ? error.stack : String(error)] *)
Definition diagnosticText (error : Thrown) : string :=
  match error with
  | ThrownError e => stack e
  | ThrownValue repr => repr
  end.

(** A computation over a mutable state [S] that may throw; the state
    reached when it throws is kept, as in JavaScript. *)
Definition M (S A : Type) : Type := S -> Completion A * S.

Definition ret {S A} (a : A) : M S A := fun s => (Normal a, s).
Definition throw {S A} (t : Thrown) : M S A := fun s => (Throw t, s).
Definition bind {S A B} (m : M S A) (k : A -> M S B) : M S B :=
  fun s => match m s with
           | (Normal a, s') => k a s'
           | (Throw t, s') => (Throw t, s')
           end.
(** [try { body } catch (error) { handler }] *)
Definition tryCatch {S A} (body : M S A) (handler : Thrown -> M S A) : M S A :=
  fun s => match body s with
           | (Normal a, s') => (Normal a, s')
           | (Throw t, s') => handler t s'
           end.
Definition gets {S A} (f : S -> A) : M S A := fun s => (Normal (f s), s).
Definition modify {S} (f : S -> S) : M S unit := fun s => (Normal tt, f s).
Definition liftCompletion {S A} (c : Completion A) : M S A := fun s => (c, s).

Declare Scope js_scope.
Delimit Scope js_scope with js.
Notation "'let*' x := c 'in' k" := (bind c (fun x => k))
  (at level 10, x name, c at level 100, k at level 200) : js_scope.
Notation "'let*' ' p := c 'in' k" := (bind c (fun x => match x with p => k end))
  (at level 10, p pattern, c at level 100, k at level 200) : js_scope.
Notation "c ;; k" := (bind c (fun _ => k))
  (at level 100, k at level 200, right associativity) : js_scope.
Local Open Scope js_scope.


(** ** The rendered tree *)

(** What a component returns: text, a host element with its attributes, a
    fragment, or a component of a third-party library ([HeadContent],
    [Scripts], [Link], [Outlet], [TanStackRouterDevtools]), whose markup the
    repository does not determine. *)
#[warnings="-register-all"]
Inductive Node :=
| Text (s : string)
| Element (tag : string) (props : list (string * string)) (children : list Node)
| Fragment (children : list Node)
| Library (component : string) (props : list (string * string)) (children : list Node).

(** The text a reader of the page sees: the DOM [textContent]. *)
Fixpoint textContent (n : Node) : string :=
  let fix all (l : list Node) : string :=
    match l with
    | [] => EmptyString
    | x :: r => textContent x +:+ all r
    end in
  match n with
  | Text s => s
  | Element _ _ children => all children
  | Fragment children => all children
  | Library _ _ children => all children
  end.

(** Whether an element with this tag occurs in the tree. *)
Fixpoint hasElement (tag : string) (n : Node) : bool :=
  let fix any (l : list Node) : bool :=
    match l with
    | [] => false
    | x :: r => hasElement tag x || any r
    end in
  match n with
  | Text _ => false
  | Element t _ children => String.eqb t tag || any children
  | Fragment children => any children
  | Library _ _ children => any children
  end.

(** ** The host: network, console, engine *)

(** [interface GitHubRepository] *)
Record GitHubRepository := {
  id : nat;
  name : string;
  description : option string;
  html_url : string;
  stargazers_count : nat;
  language : option string;
  updated_at : string
}.

(** What [response.json()] yields: the parsed value, or a [SyntaxError]
    with the engine's message. *)
Inductive JsonOutcome :=
| Parsed (data : list GitHubRepository)
| Malformed (syntaxErrorMessage : string).

(** A [fetch] response *)
Record FetchResponse := { status : Z; statusText : string; json : JsonOutcome }.

(** [response.ok]: the status is in the range 200-299. *)
Definition ok (response : FetchResponse) : bool :=
  (200 <=? status response) && (status response <=? 299).

(** [fetch(url)] resolves with a response, or rejects with a [TypeError]
    (network failure) carrying the engine's message. *)
Inductive FetchOutcome :=
| Resolved (response : FetchResponse)
| Rejected (typeErrorMessage : string).

(** [process.env] *)
Record ProcessEnv := { NODE_ENV : option string; PORT : option string }.

(** What the engine's URL parser does with a string: it accepts it, or it
    fails, and [new Request] then throws a [TypeError] with a message. *)
Inductive UrlOutcome :=
| UrlAccepted
| UrlRejected (typeErrorMessage : string).

(** The part of the outside world the rendering code talks to.  [network]
    is what the remote server answers to a GET of a URL; [stackOf] is the
    text the engine puts in [.stack] for an error of a given name and
    message, [toLocaleDateString] its rendering of a date, [parseURL] its
    URL parser; [fetched] and [console] record the calls made, oldest
    first. *)
Record Host := {
  network : string -> FetchOutcome;
  stackOf : string -> string -> string;
  toLocaleDateString : string -> string;
  parseURL : string -> UrlOutcome;
  env : ProcessEnv;
  fetched : list string;
  console : list (string * Thrown)
}.

Definition recordFetch (url : string) (h : Host) : Host :=
  {| network := network h; stackOf := stackOf h;
     toLocaleDateString := toLocaleDateString h; parseURL := parseURL h;
     env := env h;
     fetched := fetched h ++ [url]; console := console h |}.

Definition recordConsole (label : string) (error : Thrown) (h : Host) : Host :=
  {| network := network h; stackOf := stackOf h;
     toLocaleDateString := toLocaleDateString h; parseURL := parseURL h;
     env := env h;
     fetched := fetched h; console := console h ++ [(label, error)] |}.

(** [new Error(message)], and the errors the platform raises *)
Definition newError (kind msg : string) : M Host JsError :=
  gets (fun h => {| errorName := kind; message := msg; stack := stackOf h kind msg |}).

(** [console.error(label, error)] *)
Definition consoleError (label : string) (error : Thrown) : M Host unit :=
  modify (recordConsole label error).

(** [await fetch(url)] *)
Definition fetch (url : string) : M Host FetchResponse :=
  fun h =>
    match network h url with
    | Resolved response => (Normal response, recordFetch url h)
    | Rejected msg =>
        (Throw (ThrownError {| errorName := "TypeError"; message := msg;
                               stack := stackOf h "TypeError" msg |}),
         recordFetch url h)
    end.

(** [await response.json()] *)
Definition responseJson (response : FetchResponse) : M Host (list GitHubRepository) :=
  match json response with
  | Parsed data => ret data
  | Malformed msg =>
      let* e := newError "SyntaxError" msg in throw (ThrownError e)
  end.

(** ** The query layer *)

Section QueryLayer.

Context {V St : Type}.

(** A cache entry: the value, its freshness timestamp and a retry count. *)
Record CacheEntry := { data : V; dataUpdatedAt : Z; failureCount : nat }.

(** Time-based expiry only: an entry is fresh while less than
    [staleTimeMs] milliseconds have passed since it was stored. *)
Definition notExpired (now staleTimeMs : Z) (e : CacheEntry) : bool :=
  now - dataUpdatedAt e <? staleTimeMs.

Definition cachedValue (now staleTimeMs : Z) (key : list string)
    (cache : gmap (list string) CacheEntry) : option V :=
  match cache !! key with
  | Some e => if notExpired now staleTimeMs e then Some (data e) else None
  | None => None
  end.

(** A failing fetch is retried [retry] more times before the failure is
    surfaced; the number of failed attempts is returned with the value. *)
Fixpoint fetchWithRetry (retry : nat) (fetchFn : M St V) (failures : nat) : M St (V * nat) :=
  tryCatch
    (let* v := fetchFn in ret (v, failures))
    (fun error =>
       match retry with
       | O => throw error
       | S retry' => fetchWithRetry retry' fetchFn (S failures)
       end).

(** Modelled from the spec: the query cache is a third-party library of
    which the repository holds only the configuration and the callers.
    [getOrFetch(key, fetchFn, staleTimeMs)] returns the cached value if
    present and not expired; otherwise it invokes [fetchFn], stores the
    result with a fresh timestamp, and returns it.  [retry] is the
    configured number of retries and [now] the time of the call; the fetch
    function works on its own state [St] and cannot reach the cache. *)
Definition getOrFetch (retry : nat) (now : Z) (key : list string)
    (fetchFn : M St V) (staleTimeMs : Z) : M (gmap (list string) CacheEntry * St) V :=
  fun '(cache, s) =>
    match cachedValue now staleTimeMs key cache with
    | Some v => (Normal v, (cache, s))
    | None =>
        match fetchWithRetry retry fetchFn 0%nat s with
        | (Normal (v, failures), s') =>
            (Normal v,
             (<[key := {| data := v; dataUpdatedAt := now; failureCount := failures |}]> cache,
              s'))
        | (Throw t, s') => (Throw t, (cache, s'))
        end
    end.

End QueryLayer.

Arguments CacheEntry V : clear implicits.
Arguments getOrFetch {V St} retry now key fetchFn staleTimeMs.

(** [queryOptions({ queryKey, queryFn, staleTime })] *)
Record QueryOptions := {
  queryKey : list string;
  queryFn : M Host (list GitHubRepository);
  staleTime : Z
}.

(** A [QueryClient]: its cache and its default options. *)
Record QueryClient := {
  queries : gmap (list string) (CacheEntry (list GitHubRepository));
  defaultStaleTime : Z;
  retry : nat
}.

(** What one server process holds while rendering: every [QueryClient]
    created so far (a client is referred to by its position), the host, and
    the clock ([Date.now()], in milliseconds). *)
Record Runtime := { clients : list QueryClient; host : Host; now : Z }.

(** Run a host computation inside the runtime. *)
Definition onHost {A} (m : M Host A) : M Runtime A :=
  fun rt =>
    let '(r, h) := m (host rt) in
    (r, {| clients := clients rt; host := h; now := now rt |}).

(** [new QueryClient({ defaultOptions: { queries: { staleTime, retry } } })] *)
Definition newQueryClient (staleTime : Z) (retry : nat) : M Runtime nat :=
  fun rt =>
    (Normal (length (clients rt)),
     {| clients := clients rt ++ [{| queries := ∅; defaultStaleTime := staleTime; retry := retry |}];
        host := host rt; now := now rt |}).

(** Modelled from the spec: [queryClient.ensureQueryData(options)] is the
    query layer's [getOrFetch] on the cache of that client, with the
    client's retry setting and the options' key, fetch function and stale
    time.  A reference to a client always denotes a created client; the
    model throws on any other position. *)
Definition ensureQueryData (client : nat) (options : QueryOptions)
    : M Runtime (list GitHubRepository) :=
  fun rt =>
    match clients rt !! client with
    | None => (Throw (ThrownValue "no such QueryClient"), rt)
    | Some qc =>
        let '(r, (cache, h)) :=
          getOrFetch (retry qc) (now rt) (queryKey options) (queryFn options)
            (staleTime options) (queries qc, host rt) in
        (r, {| clients := <[client := {| queries := cache;
                                         defaultStaleTime := defaultStaleTime qc;
                                         retry := retry qc |}]> (clients rt);
               host := h; now := now rt |})
    end.

(** Modelled from the spec: [useSuspenseQuery(options)], called while the
    tree is rendered on the server, reads through the same [getOrFetch] of
    the client provided to the tree. *)
Definition useSuspenseQuery (client : nat) (options : QueryOptions)
    : M Runtime (list GitHubRepository) :=
  ensureQueryData client options.

(** ** [src/routes/repos/$username.tsx] *)

Definition dquote : string := String "034" EmptyString.

(** The star glyph U+2B50, in UTF-8 *)
Definition star : string := String "226" (String "173" (String "144" EmptyString)).

(** [userReposQuery(username)] *)
Definition userReposQuery (username : string) : QueryOptions := {|
  queryKey := ["githubRepos"; username];
  queryFn :=
    tryCatch
      (let* response := fetch ("https://api.github.com/users/" +:+ username +:+ "/repos") in
       if negb (ok response) then
         if status response =? 404 then
           let* e := newError "Error" ("User " +:+ dquote +:+ username +:+ dquote +:+ " not found") in
           throw (ThrownError e)
         else
           let* e := newError "Error"
                       ("Failed to load repos for " +:+ username +:+ ": " +:+ statusText response) in
           throw (ThrownError e)
       else
         let* data := responseJson response in
         ret data)
      (fun error =>
         consoleError ("Error fetching repos for " +:+ username +:+ ":") error ;;
         throw error);
  staleTime := 1000 * 60 * 5
|}.

(** The route's [loader]: [params.username] and [context.queryClient] *)
Definition loader (username : string) (queryClient : nat) : M Runtime (list GitHubRepository) :=
  ensureQueryData queryClient (userReposQuery username).

(** [cond && <markup/>] for a [string | null] condition: nothing is
    rendered for [null] and for the empty string. *)
Definition whenPresent (o : option string) (markup : string -> Node) : list Node :=
  match o with
  | Some s => if String.eqb s EmptyString then [] else [markup s]
  | None => []
  end.

(** One [<li>] of the repository list *)
Definition RepoItem (formatDate : string -> string) (repo : GitHubRepository) : Node :=
  Element "li"
    [("key", JsString.ofNat (id repo));
     ("className", "bg-white border border-gray-200 rounded-lg p-4 hover:shadow-md transition-shadow")]
    [Element "div" [("className", "flex items-start justify-between")]
       [Element "div" [("className", "flex-1")]
          ([Element "a"
              [("href", html_url repo); ("target", "_blank"); ("rel", "noreferrer");
               ("className", "text-blue-600 hover:text-blue-800 hover:underline font-semibold text-lg")]
              [Text (name repo)]]
           ++ whenPresent (description repo)
                (fun d => Element "p" [("className", "text-gray-700 mt-1")] [Text d])
           ++ [Element "div" [("className", "flex items-center gap-4 mt-2 text-sm text-gray-500")]
                 (whenPresent (language repo)
                    (fun l => Element "span" [("className", "flex items-center gap-1")]
                                [Element "span" [("className", "w-3 h-3 bg-blue-500 rounded-full")] [];
                                 Text l])
                  ++ [Element "span" [("className", "flex items-center gap-1")]
                        [Text (star +:+ " "); Text (JsString.ofNat (stargazers_count repo))];
                      Element "span" []
                        [Text "Updated "; Text (formatDate (updated_at repo))]])])]].

(** The markup [ReposPage] returns for a user name and the list read from
    the cache. *)
Definition ReposPageMarkup (formatDate : string -> string) (username : string)
    (repos : list GitHubRepository) : Node :=
  Element "div" [("className", "max-w-4xl mx-auto")]
    [Element "h2" [("className", "text-3xl font-bold text-gray-900 mb-2")]
       [Text "Repositories of "; Text username];
     Element "p" [("className", "text-gray-600 mb-6")]
       [Text "Showing "; Text (JsString.ofNat (length repos)); Text " ";
        Text (if Nat.eqb (length repos) 1 then "repository" else "repositories")];
     (if Nat.eqb (length repos) 0 then
        Element "div" [("className", "bg-yellow-50 border border-yellow-200 rounded-lg p-4")]
          [Element "p" [("className", "text-yellow-900")]
             [Text "No public repositories found for this user."]]
      else
        Element "ul" [("className", "space-y-4")] (map (RepoItem formatDate) repos))].

(** The component: [Route.useParams()] gives [username], the list comes
    from [useSuspenseQuery(userReposQuery(username))]. *)
Definition ReposPage (queryClient : nat) (username : string) : M Runtime Node :=
  let* repos := useSuspenseQuery queryClient (userReposQuery username) in
  let* formatDate := gets (fun rt => toLocaleDateString (host rt)) in
  ret (ReposPageMarkup formatDate username repos).

(** ** [src/routes/index.tsx] *)

Definition HomePage : Node :=
  Element "div" [("className", "max-w-2xl mx-auto")]
    [Element "h1" [("className", "text-4xl font-bold text-gray-900 mb-4")]
       [Text "Welcome to the SSR React App!"];
     Element "p" [("className", "text-lg text-gray-700 mb-6")]
       [Text "This is a server-side rendered React application built with:"];
     Element "ul" [("className", "list-disc list-inside space-y-2 text-gray-700")]
       [Element "li" [] [Text "React 18 with TypeScript"];
        Element "li" [] [Text "TanStack Router for type-safe routing"];
        Element "li" [] [Text "TanStack Query for data fetching and caching"];
        Element "li" [] [Text "Tailwind CSS for styling"];
        Element "li" [] [Text "Vite for fast development and building"]];
     Element "div" [("className", "mt-8 p-4 bg-blue-50 border border-blue-200 rounded-lg")]
       [Element "p" [("className", "text-sm text-blue-900")]
          [Element "strong" [] [Text "Try it out:"];
           Text " Navigate to"; Text " ";
           Element "a" [("href", "/repos/tanstack");
                        ("className", "text-blue-600 hover:underline font-semibold")]
             [Text "/repos/tanstack"];
           Text " ";
           Text "to see server-side data fetching in action!"]]].

(** ** [src/routes/__root.tsx] *)

(** [RootLayout]; [outlet] is what [<Outlet />] renders, the page of the
    matched child route. *)
Definition RootLayout (nodeEnv : option string) (outlet : Node) : Node :=
  Fragment
    [Library "HeadContent" [] [];
     Element "div" [("className", "min-h-screen flex flex-col bg-gray-50")]
       ([Element "header" [("className", "bg-blue-600 text-white shadow-md")]
           [Element "nav" [("className", "container mx-auto px-4 py-4")]
              [Element "div" [("className", "flex space-x-6")]
                 [Library "Link"
                    [("to", "/");
                     ("className", "font-bold text-lg hover:text-blue-200 transition-colors");
                     ("activeProps.className", "underline")]
                    [Text "Home"];
                  Library "Link"
                    [("to", "/repos/tanstack");
                     ("className", "font-bold text-lg hover:text-blue-200 transition-colors");
                     ("activeProps.className", "underline")]
                    [Text "TanStack Repos"]]]];
         Element "main" [("className", "flex-1 container mx-auto px-4 py-8")]
           [Library "Outlet" [] [outlet]];
         Element "footer" [("className", "bg-gray-800 text-white py-4 mt-auto")]
           [Element "div" [("className", "container mx-auto px-4 text-center text-sm")]
              [Element "p" [] [Text "SSR React App with TanStack Router & Query"]]]]
        ++ (if decide (nodeEnv = Some "development")
            then [Library "TanStackRouterDevtools" [("position", "bottom-right")] []]
            else []));
     Library "Scripts" [] []].

(** ** [src/router.tsx] *)

(** The page definitions of the route tree: [/], [/repos/$username], and
    the not-found fallback. *)
Inductive RouteMatch :=
| IndexRoute
| ReposRoute (username : string)
| NotFoundRoute.

(** A router: the [queryClient] of its context, its options, and the match
    its [load] stored. *)
Record Router := {
  contextQueryClient : nat;
  defaultPreload : string;
  matches : option RouteMatch
}.

(** [getRouter()]: a new [QueryClient] with stale time 5 minutes and one
    retry, a router holding it in its context, and the SSR query
    integration set up for the pair. *)
Definition getRouter : M Runtime Router :=
  let* queryClient := newQueryClient (1000 * 60 * 5) 1 in
  let router := {| contextQueryClient := queryClient;
                   defaultPreload := "intent";
                   matches := None |} in
  ret router.

(** ** Requests, responses and route resolution *)

(** A WHATWG [Request] as [new Request(input)] builds it, represented by
    what determines it: [url] holds the string the constructor was given,
    of which the engine's [request.url] is the serialization by the URL
    parser (the same text when the input is already in serialized form). *)
Record Request := {
  url : string;
  requestMethod : string;
  requestHeaders : list (string * string)
}.

(** The object [new Request(input)] builds when it builds one: a GET
    without headers. *)
Definition requestOf (input : string) : Request :=
  {| url := input; requestMethod := "GET"; requestHeaders := [] |}.

(** [new Request(input)]: the input is parsed as a URL, and a [TypeError]
    is thrown when it does not parse. *)
Definition newRequest (h : Host) (input : string) : Completion Request :=
  match parseURL h input with
  | UrlAccepted => Normal (requestOf input)
  | UrlRejected msg =>
      Throw (ThrownError {| errorName := "TypeError"; message := msg;
                            stack := stackOf h "TypeError" msg |})
  end.

(** A WHATWG [Response] *)
Record WebResponse := {
  responseBody : string;
  responseStatus : Z;
  responseHeaders : list (string * string)
}.

Fixpoint takeUntil (stop : ascii -> bool) (s : string) : string :=
  match s with
  | EmptyString => EmptyString
  | String c s' => if stop c then EmptyString else String c (takeUntil stop s')
  end.

(** [new URL(url).pathname] for an [http://host/path?query#hash] URL *)
Definition pathnameOf (url : string) : string :=
  match JsString.splitFirst "://" url with
  | Some (_, rest) =>
      match JsString.splitFirst "/" rest with
      | Some (_, path) =>
          takeUntil (fun c => Ascii.eqb c "?" || Ascii.eqb c "#") (String "/" path)
      | None => "/"
      end
  | None => "/"
  end.

(** Modelled from the spec: route resolution belongs to the routing
    library.  A request path is mapped to exactly one page definition or to
    the not-found fallback; the static route [/] is tried before the
    parameterized [/repos/$username], whose parameter is one non-empty
    path segment. *)
Definition matchRoute (pathname : string) : RouteMatch :=
  if String.eqb pathname "/" then IndexRoute
  else if JsString.startsWith "/repos/" pathname then
    let username := JsString.drop 7 pathname in
    if String.eqb username EmptyString || JsString.includes "/" username
    then NotFoundRoute
    else ReposRoute username
  else NotFoundRoute.

(** Modelled from the spec: [createRequestHandler({ request, createRouter })]
    of the routing library.  It creates the router of this request, resolves
    the route, executes its loader (if present) to populate the query layer
    before rendering, and then calls the render callback; a rejected loader
    propagates up through route resolution (there is no per-route error
    boundary). *)
Definition tanstackRequestHandler (request : Request) (createRouter : M Runtime Router)
    (cb : Router -> M Runtime WebResponse) : M Runtime WebResponse :=
  let* router := createRouter in
  let matched := matchRoute (pathnameOf (url request)) in
  (match matched with
   | ReposRoute username => let* _ := loader username (contextQueryClient router) in ret tt
   | IndexRoute | NotFoundRoute => ret tt
   end) ;;
  cb {| contextQueryClient := contextQueryClient router;
        defaultPreload := defaultPreload router;
        matches := Some matched |}.

(** Modelled from the spec: the tree [<RouterServer router={router} />]
    renders, the root layout around the page of the matched route; the
    not-found fallback is the routing library's own component. *)
Definition RouterServer (router : Router) : M Runtime Node :=
  let* nodeEnv := gets (fun rt => NODE_ENV (env (host rt))) in
  let* outlet :=
    match matches router with
    | Some IndexRoute => ret HomePage
    | Some (ReposRoute username) => ReposPage (contextQueryClient router) username
    | Some NotFoundRoute | None => ret (Library "NotFound" [] [])
    end in
  ret (RootLayout nodeEnv outlet).

(** ** [src/entry-server.tsx] *)

Module EntryServer.

Section Render.

(** The two library functions [render] calls: React's serializer and the
    routing library's request handler. *)
Variable renderToString : Node -> string.
Variable createRequestHandler :
  Request -> M Runtime Router -> (Router -> M Runtime WebResponse) -> M Runtime WebResponse.

(** The custom render handler passed to [handler]: the loaded router's
    tree is rendered and serialized into a 200 [text/html] response. *)
Definition renderCallback (router : Router) : M Runtime WebResponse :=
  let* tree := RouterServer router in
  let html := renderToString tree in
  ret {| responseBody := html;
         responseStatus := 200;
         responseHeaders := [("Content-Type", "text/html")] |}.

(** The error HTML the [catch] branch returns *)
Definition errorFragment (error : Thrown) : string :=
  "<div><h1>Server Error</h1><pre>" +:+ diagnosticText error +:+ "</pre></div>".

(** [render({ request })] *)
Definition render (request : Request) : M Runtime string :=
  tryCatch
    (let handler := createRequestHandler request getRouter in
     let* response := handler renderCallback in
     let html := responseBody response in
     ret html)
    (fun error =>
       onHost (consoleError "Error during SSR render:" error) ;;
       ret (errorFragment error)).

End Render.

End EntryServer.

(** ** [server.ts] *)

Inductive Method := GET | HEAD | POST | PUT | PATCH | DELETE | OPTIONS.

(** The incoming Express request *)
Record ExpressRequest := {
  method : Method;
  originalUrl : string;
  headers : list (string * string);
  body : string
}.

(** What [res.status(..).set(..).send(..)] sends.  Express gives a string
    body the content type [text/html] unless another one was set. *)
Record Response := { statusCode : Z; contentType : string; sent : string }.

(** A loaded server entry module: its [render] export. *)
Record SsrModule := { render : Request -> M Runtime string }.

(** What the handler does to the outside, oldest first. *)
Inductive IoEvent :=
| ReadFile (path : string)
| TransformIndexHtml (url : string)
| SsrLoadModule (path : string)
| Import (specifier : string)
| Render (request : Request)
| ConsoleError (label : string) (error : Thrown).

(** The disk, the handler's effects so far, and the rendering runtime. *)
Record World := { files : gmap string string; io : list IoEvent; runtime : Runtime }.

(** What a middleware does with a request: it may read the disk, log and
    change the world, and then it answers the request, or calls [next()]
    ([None]), or fails, which hands the error to Express's error handler. *)
Definition Middleware : Type := ExpressRequest -> M World (option Response).

(** The Vite dev server handle *)
Record ViteDevServer := {
  transformIndexHtml : string -> string -> Completion string;
  ssrLoadModule : string -> Completion SsrModule;
  middlewares : Middleware
}.

(** The module-level constants of [server.ts] and the modules it loads:
    [isProd], [__dirname], the [vite] handle left by [initializeVite],
    what [import('./dist/server/entry-server.js')] resolves to, and the
    [express.static] middleware for a root directory. *)
Record Server := {
  isProd : bool;
  dirname : string;
  vite : option ViteDevServer;
  importModule : string -> Completion SsrModule;
  expressStatic : string -> Middleware
}.

Definition record (e : IoEvent) : M World unit :=
  modify (fun w => {| files := files w; io := io w ++ [e]; runtime := runtime w |}).

Definition onRuntime {A} (m : M Runtime A) : M World A :=
  fun w =>
    let '(r, rt) := m (runtime w) in
    (r, {| files := files w; io := io w; runtime := rt |}).

(** [const isProd = process.env.NODE_ENV === 'production'] *)
Definition isProdOf (e : ProcessEnv) : bool :=
  bool_decide (NODE_ENV e = Some "production").

(** [resolve(p)], that is [path.resolve(__dirname, p)] *)
Definition resolve (srv : Server) (p : string) : string := dirname srv +:+ "/" +:+ p.

(** The error Node raises for a missing file *)
Definition enoent (h : Host) (path : string) : Thrown :=
  let msg := "ENOENT: no such file or directory, open '" +:+ path +:+ "'" in
  ThrownError {| errorName := "Error"; message := msg; stack := stackOf h "Error" msg |}.

(** [readFileSync(path, 'utf-8')] *)
Definition readFileSync (path : string) : M World string :=
  record (ReadFile path) ;;
  fun w =>
    match files w !! path with
    | Some content => (Normal content, w)
    | None => (Throw (enoent (host (runtime w)) path), w)
    end.

(** [initializeVite()]: outside production the dev server is created and
    kept; a failure to create it rejects the module's top-level [await]. *)
Definition initializeVite (isProd : bool) (createServer : Completion ViteDevServer)
    : Completion (option ViteDevServer) :=
  if negb isProd then
    match createServer with
    | Normal v => Normal (Some v)
    | Throw t => Throw t
    end
  else Normal None.

(** [process.env.PORT || 3000], as it appears in a template literal *)
Definition portText (e : ProcessEnv) : string :=
  match PORT e with
  | Some p => if String.eqb p EmptyString then "3000" else p
  | None => "3000"
  end.

Definition placeholder : string := "<!--app-html-->".

(** The page of the [catch] branch *)
Definition errorPage (errorMessage : string) : string :=
  "
      <html>
        <head><title>Server Error</title></head>
        <body>
          <h1>Server Error</h1>
          <pre>" +:+ errorMessage +:+ "</pre>
        </body>
      </html>
    ".

(** The template literal given to [new Request], and the request object
    handed to [render] when the constructor accepts it *)
Definition requestInput (e : ProcessEnv) (url : string) : string :=
  "http://localhost:" +:+ portText e +:+ url.

Definition renderRequest (e : ProcessEnv) (url : string) : Request :=
  requestOf (requestInput e url).

(** The handler of [app.get('*', ...)] *)
Definition ssrHandler (srv : Server) (req : ExpressRequest) : M World Response :=
  tryCatch
    (let url := originalUrl req in
     let* '(template, appHtml) :=
       match (if isProd srv then None else vite srv) with
       | Some vite =>
           let* template := readFileSync (resolve srv "index.html") in
           record (TransformIndexHtml url) ;;
           let* template := liftCompletion (transformIndexHtml vite url template) in
           record (SsrLoadModule "/src/entry-server.tsx") ;;
           let* module := liftCompletion (ssrLoadModule vite "/src/entry-server.tsx") in
           let* h := gets (fun w => host (runtime w)) in
           let* request := liftCompletion (newRequest h (requestInput (env h) url)) in
           record (Render request) ;;
           let* appHtml := onRuntime (render module request) in
           ret (template, appHtml)
       | None =>
           let* template := readFileSync (resolve srv "dist/client/index.html") in
           record (Import "./dist/server/entry-server.js") ;;
           let* module := liftCompletion (importModule srv "./dist/server/entry-server.js") in
           let* h := gets (fun w => host (runtime w)) in
           let* request := liftCompletion (newRequest h (requestInput (env h) url)) in
           record (Render request) ;;
           let* appHtml := onRuntime (render module request) in
           ret (template, appHtml)
       end in
     let finalHtml := JsString.replace template placeholder appHtml in
     ret {| statusCode := 200; contentType := "text/html"; sent := finalHtml |})
    (fun error =>
       record (ConsoleError "Error during SSR:" error) ;;
       let errorMessage := diagnosticText error in
       ret {| statusCode := 500; contentType := "text/html"; sent := errorPage errorMessage |}).

(** *** The Express application *)

(** A layer of the application's stack: a middleware registered with
    [app.use], or a route registered with [app.get]. *)
Inductive Layer :=
| Use (middleware : Middleware)
| Get (path : string) (handler : ExpressRequest -> M World Response).

(** [compression()] wraps the response stream and always calls [next()];
    a [Response] is the answer before its encoding. *)
Definition compression : Middleware := fun _ => ret None.

(** The stack in registration order: [compression], in production the
    static assets of [dist/client], the Vite middlewares when
    [initializeVite] created a dev server, and the catch-all route. *)
Definition app (srv : Server) : list Layer :=
  [Use compression]
  ++ (if isProd srv then [Use (expressStatic srv (resolve srv "dist/client"))] else [])
  ++ (match vite srv with Some v => [Use (middlewares v)] | None => [] end)
  ++ [Get "*" (ssrHandler srv)].


(** Who answered a request: the route, a middleware, or Express itself
    when no layer did, of whose answer the status is kept. *)
Inductive Served :=
| ByRoute (r : Response)
| ByMiddleware (r : Response)
| ByExpress (status : Z).

(** A route registered with [app.get] handles GET, and HEAD in the absence
    of a HEAD handler. *)
Definition getHandles (m : Method) : bool :=
  match m with GET | HEAD => true | _ => false end.

(** The path pattern ['*'] matches every path. *)
Definition pathMatches (pattern path : string) : bool :=
  String.eqb pattern "*" || String.eqb pattern path.

(** The status of Express's answer when no layer answered: for OPTIONS
    200, with the methods of the routes matching the path, otherwise 404,
    with Express's own error document. *)
Definition expressDefault (req : ExpressRequest) : Z :=
  match method req with
  | OPTIONS => 200
  | _ => 404
  end.

(** Express's dispatch of a request through the stack, each layer running
    in the world the layers before it left; a [Throw] is an error handed
    to Express's error handler. *)
Fixpoint dispatch (stack : list Layer) (req : ExpressRequest) : M World Served :=
  match stack with
  | [] => ret (ByExpress (expressDefault req))
  | Use middleware :: rest =>
      let* answer := middleware req in
      match answer with
      | Some r => ret (ByMiddleware r)
      | None => dispatch rest req
      end
  | Get path handler :: rest =>
      if pathMatches path (originalUrl req) && getHandles (method req)
      then let* r := handler req in ret (ByRoute r)
      else dispatch rest req
  end.


(** ** Observations on a run *)

(** The events a computation adds to the handler's log. *)
Definition eventsOf {A} (m : M World A) (w : World) : list IoEvent :=
  drop (length (io w)) (io (snd (m w))).

Definition isReadFile (e : IoEvent) : bool :=
  match e with ReadFile _ => true | _ => false end.

(** The events only the development branch produces *)
Definition developmentOnly (e : IoEvent) : bool :=
  match e with
  | TransformIndexHtml _ | SsrLoadModule _ => true
  | _ => false
  end.

Definition isConsoleError (e : IoEvent) : bool :=
  match e with ConsoleError _ _ => true | _ => false end.

(** The files read, in order. *)
Fixpoint readsOf (events : list IoEvent) : list string :=
  match events with
  | [] => []
  | ReadFile path :: rest => path :: readsOf rest
  | _ :: rest => readsOf rest
  end.

(** The request objects handed to [render], in order. *)
Fixpoint renderInputs (events : list IoEvent) : list Request :=
  match events with
  | [] => []
  | Render request :: rest => request :: renderInputs rest
  | _ :: rest => renderInputs rest
  end.

(** The handler invoked once per request, one request after the other. *)
Fixpoint handleAll (srv : Server) (reqs : list ExpressRequest) : M World (list Response) :=
  match reqs with
  | [] => ret []
  | req :: rest =>
      let* r := ssrHandler srv req in
      let* rs := handleAll srv rest in
      ret (r :: rs)
  end.

(** The path of the shell the handler reads: [index.html] in the
    development branch, the prebuilt [dist/client/index.html] otherwise. *)
Definition shellPath (srv : Server) : string :=
  match (if isProd srv then None else vite srv) with
  | Some _ => resolve srv "index.html"
  | None => resolve srv "dist/client/index.html"
  end.

(** The template the handler obtains for a URL, when it obtains one: the
    shell on disk, transformed by Vite in the development branch. *)
Definition templateOf (srv : Server) (url : string) (w : World) : option string :=
  match files w !! shellPath srv with
  | Some shell =>
      match (if isProd srv then None else vite srv) with
      | Some v =>
          match transformIndexHtml v url shell with
          | Normal template => Some template
          | Throw _ => None
          end
      | None => Some shell
      end
  | None => None
  end.

(** The server entry module the handler loads. *)
Definition moduleOf (srv : Server) : Completion SsrModule :=
  match (if isProd srv then None else vite srv) with
  | Some v => ssrLoadModule v "/src/entry-server.tsx"
  | None => importModule srv "./dist/server/entry-server.js"
  end.

(** The client [getRouter] creates *)
Definition freshClient : QueryClient :=
  {| queries := ∅; defaultStaleTime := 1000 * 60 * 5; retry := 1 |}.

(** A client with its cache replaced *)
Definition withQueries (cache : gmap (list string) (CacheEntry (list GitHubRepository)))
    (qc : QueryClient) : QueryClient :=
  {| queries := cache; defaultStaleTime := defaultStaleTime qc; retry := retry qc |}.

(** A fetch function instrumented with a counter of its invocations. *)
Definition counted {St V} (fetchFn : M St V) : M (St * nat) V :=
  fun '(s, n) => let '(r, s') := fetchFn s in (r, (s', S n)).

(** An HTML fragment delimited by markup: it begins with [<], ends with
    [>], and neither contains the placeholder nor a replacement pattern. *)
Definition delimitedFragment (fragment : string) : Prop :=
  JsString.firstChar fragment = Some "<"%char
  /\ JsString.lastChar fragment = Some ">"%char
  /\ JsString.includes placeholder fragment = false
  /\ JsString.plainReplacement fragment = true.

(** ** A sample deployment, used in the examples *)

Fixpoint attributes (props : list (string * string)) : string :=
  match props with
  | [] => EmptyString
  | (k, v) :: rest => " " +:+ k +:+ "=" +:+ dquote +:+ v +:+ dquote +:+ attributes rest
  end.

(** A plain serializer standing for React's in the examples; a library
    component is written as an element named after it. *)
Fixpoint staticMarkup (n : Node) : string :=
  let fix all (l : list Node) : string :=
    match l with
    | [] => EmptyString
    | x :: r => staticMarkup x +:+ all r
    end in
  match n with
  | Text s => s
  | Element tag props children =>
      "<" +:+ tag +:+ attributes props +:+ ">" +:+ all children +:+ "</" +:+ tag +:+ ">"
  | Fragment children => all children
  | Library component props children =>
      "<" +:+ component +:+ attributes props +:+ ">" +:+ all children
      +:+ "</" +:+ component +:+ ">"
  end.

(** The external API: [octocat] has no public repository, the user
    [doesnotexist123] does not exist, and every other request fails. *)
Definition sampleNetwork (url : string) : FetchOutcome :=
  if String.eqb url "https://api.github.com/users/octocat/repos" then
    Resolved {| status := 200; statusText := "OK"; json := Parsed [] |}
  else if String.eqb url "https://api.github.com/users/doesnotexist123/repos" then
    Resolved {| status := 404; statusText := "Not Found";
                json := Malformed "Unexpected end of JSON input" |}
  else Rejected "fetch failed".

(** The value of a decimal numeral *)
Fixpoint digitsValue (acc : N) (s : string) : option N :=
  match s with
  | EmptyString => Some acc
  | String c rest =>
      let n := N_of_ascii c in
      if ((48 <=? n) && (n <=? 57))%N then digitsValue (10 * acc + (n - 48))%N rest
      else None
  end.

Definition decimal (s : string) : option N :=
  match s with
  | EmptyString => None
  | _ => digitsValue 0 s
  end.

(** The URL parser on the inputs the handler builds, those that begin with
    [http://localhost:]: the port runs up to the first [/], [?], [#] or
    backslash, and is empty or a decimal numeral of at most 65535; what
    follows it never makes the parser fail. *)
Definition sampleParseURL (input : string) : UrlOutcome :=
  let rejected := UrlRejected ("Failed to parse URL from " +:+ input) in
  if JsString.startsWith "http://localhost:" input then
    let port :=
      takeUntil (fun c => Ascii.eqb c "/" || Ascii.eqb c "?" || Ascii.eqb c "#"
                          || Ascii.eqb c "092")
                (JsString.drop 17 input) in
    match port with
    | EmptyString => UrlAccepted
    | _ =>
        match digitsValue 0 port with
        | Some n => if (n <=? 65535)%N then UrlAccepted else rejected
        | None => rejected
        end
    end
  else rejected.

(** Binding a port that is free: a decimal numeral of 65536 or more is
    refused with a [RangeError]; a string that is no numeral names a pipe. *)
Definition sampleListen (port : string) : Completion unit :=
  match decimal port with
  | Some n =>
      if (n <? 65536)%N then Normal tt
      else
        let msg := "options.port should be >= 0 and < 65536. Received type string ('"
                   +:+ port +:+ "')." in
        Throw (ThrownError {| errorName := "RangeError"; message := msg;
                              stack := "RangeError [ERR_SOCKET_BAD_PORT]: " +:+ msg |})
  | None => Normal tt
  end.

Definition sampleHost (nodeEnv : option string) : Host := {|
  network := sampleNetwork;
  stackOf := fun kind msg => kind +:+ ": " +:+ msg +:+ "
    at <anonymous>";
  toLocaleDateString := fun date => date;
  parseURL := sampleParseURL;
  env := {| NODE_ENV := nodeEnv; PORT := None |};
  fetched := [];
  console := []
|}.

Definition sampleShell : string :=
  "<!DOCTYPE html><html><head></head><body><div id=root><!--app-html--></div></body></html>".

Definition sampleModule : SsrModule :=
  {| render := EntryServer.render staticMarkup tanstackRequestHandler |}.

Definition sampleWorld (nodeEnv : option string) : World := {|
  files := {[ "/app/dist/client/index.html" := sampleShell; "/app/index.html" := sampleShell ]};
  io := [];
  runtime := {| clients := []; host := sampleHost nodeEnv; now := 1700000000000 |}
|}.

(** A production process *)
Definition productionServer : Server := {|
  isProd := true;
  dirname := "/app";
  vite := None;
  importModule := fun _ => Normal sampleModule;
  expressStatic := fun _ _ => ret None
|}.

Definition sampleVite : ViteDevServer := {|
  transformIndexHtml := fun _ template =>
    Normal (JsString.replace template "</head>"
              "<script type=module src=/@vite/client></script></head>");
  ssrLoadModule := fun _ => Normal sampleModule;
  middlewares := fun _ => ret None
|}.

(** A development process *)
Definition developmentServer : Server := {|
  isProd := false;
  dirname := "/app";
  vite := Some sampleVite;
  importModule := fun _ => Normal sampleModule;
  expressStatic := fun _ _ => ret None
|}.

(** A production process whose server bundle is the repository's [render]
    over a given [renderToString] and request handler of the routing
    library, and a request handler out of which a failure comes as an
    exception. *)
Definition serverRendering (renderToString : Node -> string)
    (createRequestHandler :
       Request -> M Runtime Router -> (Router -> M Runtime WebResponse)
       -> M Runtime WebResponse) : Server := {|
  isProd := true;
  dirname := "/app";
  vite := None;
  importModule := fun _ =>
    Normal {| render := EntryServer.render renderToString createRequestHandler |};
  expressStatic := fun _ _ => ret None
|}.

Definition escapingHandler (error : Thrown)
    : Request -> M Runtime Router -> (Router -> M Runtime WebResponse)
      -> M Runtime WebResponse :=
  fun _ _ _ => throw error.

(** A process outside production that holds no Vite handle *)
Definition bareServer : Server := {|
  isProd := false;
  dirname := "/app";
  vite := None;
  importModule := fun _ => Normal sampleModule;
  expressStatic := fun _ _ => ret None
|}.

(** The error the repository query raises for the user [doesnotexist123] *)
Definition sampleNotFound : Thrown :=
  let msg := "User " +:+ dquote +:+ "doesnotexist123" +:+ dquote +:+ " not found" in
  ThrownError {| errorName := "Error"; message := msg;
                 stack := stackOf (sampleHost None) "Error" msg |}.

(** A change made to the prebuilt shell on disk between two requests. *)
Definition rewriteShell (content : string) (w : World) : World :=
  {| files := <["/app/dist/client/index.html" := content]> (files w);
     io := io w; runtime := runtime w |}.

Definition get (path : string) : ExpressRequest :=
  {| method := GET; originalUrl := path; headers := []; body := EmptyString |}.

(** ** Starting the process: the module body of [server.ts] *)

(** What the module body needs from outside: its directory, what
    [import('vite')] followed by [createServer] resolves to, the dynamic
    [import], [express.static], and what binding a port does: [listen]
    fails when [app.listen] throws for a port out of range or the server
    emits an unhandled [error] for a port it cannot bind; the process then
    ends with that error and the callback of [listen] never runs. *)
Record Platform := {
  moduleDirectory : string;
  createServer : Completion ViteDevServer;
  dynamicImport : string -> Completion SsrModule;
  staticMiddleware : string -> Middleware;
  listen : string -> Completion unit
}.

(** The rocket and package glyphs U+1F680 and U+1F4E6, in UTF-8 *)
Definition rocket : string :=
  String "240" (String "159" (String "154" (String "128" EmptyString))).
Definition package : string :=
  String "240" (String "159" (String "147" (String "166" EmptyString))).

(** [process.env.NODE_ENV || 'development'] *)
Definition environmentName (e : ProcessEnv) : string :=
  match NODE_ENV e with
  | Some n => if String.eqb n EmptyString then "development" else n
  | None => "development"
  end.

(** A started process: the constants the handler uses, the port
    [app.listen] bound, if it was called, and the lines logged by the
    callback of [listen]. *)
Record Started := {
  server : Server;
  listening : option string;
  startupLog : list string
}.

(** The module body, top to bottom: [isProd] is computed, the application
    is created, [initializeVite()] is awaited, the route is registered,
    and outside production [app.listen(port)] is called with
    [process.env.PORT || 3000]; a failure of [initializeVite] or of
    [listen] ends the process. *)
Definition startServer (e : ProcessEnv) (p : Platform) : Completion Started :=
  let isProd := isProdOf e in
  match initializeVite isProd (createServer p) with
  | Throw t => Throw t
  | Normal vite =>
      let srv := {| isProd := isProd; dirname := moduleDirectory p; vite := vite;
                    importModule := dynamicImport p;
                    expressStatic := staticMiddleware p |} in
      let port := portText e in
      if negb isProd then
        match listen p port with
        | Throw t => Throw t
        | Normal _ =>
            Normal {| server := srv; listening := Some port;
                      startupLog :=
                        [rocket +:+ " Dev SSR server running at http://localhost:" +:+ port;
                         package +:+ " Environment: " +:+ environmentName e] |}
        end
      else
        Normal {| server := srv; listening := None; startupLog := [] |}
  end.

(** ** More observations on trees *)

(** The number of elements with a tag *)
Fixpoint countElements (tag : string) (n : Node) : nat :=
  let fix sum (l : list Node) : nat :=
    match l with
    | [] => O
    | x :: r => (countElements tag x + sum r)%nat
    end in
  match n with
  | Text _ => O
  | Element t _ children => ((if String.eqb t tag then 1 else 0) + sum children)%nat
  | Fragment children => sum children
  | Library _ _ children => sum children
  end.

(** The value of a prop *)
Fixpoint propOf (key : string) (props : list (string * string)) : option string :=
  match props with
  | [] => None
  | (k, v) :: rest => if String.eqb k key then Some v else propOf key rest
  end.

(** The targets of the [<a>] elements of a tree, in document order *)
Fixpoint hrefs (n : Node) : list string :=
  let fix all (l : list Node) : list string :=
    match l with
    | [] => []
    | x :: r => hrefs x ++ all r
    end in
  match n with
  | Text _ => []
  | Element t props children =>
      (if String.eqb t "a"
       then match propOf "href" props with Some h => [h] | None => [] end
       else [])
      ++ all children
  | Fragment children => all children
  | Library _ _ children => all children
  end.

(** Whether a library component occurs in the tree *)
Fixpoint hasLibrary (component : string) (n : Node) : bool :=
  let fix any (l : list Node) : bool :=
    match l with
    | [] => false
    | x :: r => hasLibrary component x || any r
    end in
  match n with
  | Text _ => false
  | Element _ _ children => any children
  | Fragment children => any children
  | Library c _ children => String.eqb c component || any children
  end.

(** The label of the repository count: [{n} {n === 1 ? 'repository' :
    'repositories'}] after [Showing ]. *)
Definition countLabel (n : nat) : string :=
  "Showing " +:+ JsString.ofNat n +:+ " "
  +:+ (if Nat.eqb n 1 then "repository" else "repositories").

(** A sample platform and two sample repositories *)
Definition samplePlatform : Platform := {|
  moduleDirectory := "/app";
  createServer := Normal sampleVite;
  dynamicImport := fun _ => Normal sampleModule;
  staticMiddleware := fun _ _ => ret None;
  listen := sampleListen
|}.

Definition sampleRepo : GitHubRepository := {|
  id := 101;
  name := "Hello-World";
  description := Some "My first repository on GitHub!";
  html_url := "https://github.com/octocat/Hello-World";
  stargazers_count := 80;
  language := None;
  updated_at := "2011-01-26T19:14:43Z"
|}.

Definition sampleRepoBare : GitHubRepository := {|
  id := 102;
  name := "Spoon-Knife";
  description := None;
  html_url := "https://github.com/octocat/Spoon-Knife";
  stargazers_count := 12;
  language := Some "HTML";
  updated_at := "2011-01-27T19:30:43Z"
|}.

(** A world whose disk is empty, and one whose shell has no placeholder *)
Definition emptyDiskWorld : World :=
  {| files := ∅; io := []; runtime := runtime (sampleWorld (Some "production")) |}.

Definition plainShellWorld : World :=
  {| files := {[ "/app/dist/client/index.html" := "<html><body>static</body></html>" ]};
     io := []; runtime := runtime (sampleWorld (Some "production")) |}.

(** A static middleware serving the files under its root to GET and HEAD:
    it looks the file up on disk and reads the one it finds. *)
Definition sampleStatic (root : string) : Middleware :=
  fun req =>
    if getHandles (method req) then
      let path := root +:+ originalUrl req in
      let* found := gets (fun w => files w !! path) in
      match found with
      | Some _ =>
          let* content := readFileSync path in
          ret (Some {| statusCode := 200; contentType := "application/octet-stream";
                       sent := content |})
      | None => ret None
      end
    else ret None.

Definition assetServer : Server := {|
  isProd := true;
  dirname := "/app";
  vite := None;
  importModule := fun _ => Normal sampleModule;
  expressStatic := sampleStatic
|}.


(** A world of a process started with [PORT=99999] *)
Definition farPortWorld : World := {|
  files := {[ "/app/dist/client/index.html" := sampleShell ]};
  io := [];
  runtime :=
    {| clients := [];
       host := {| network := sampleNetwork;
                  stackOf := stackOf (sampleHost None);
                  toLocaleDateString := fun date => date;
                  parseURL := sampleParseURL;
                  env := {| NODE_ENV := Some "production"; PORT := Some "99999" |};
                  fetched := [];
                  console := [] |};
       now := 1700000000000 |}
|}.

(** A world whose shell holds the placeholder twice, and a server entry
    module whose [render] returns a text with the pattern [$&] *)
Definition doubleShellWorld : World :=
  {| files := {[ "/app/dist/client/index.html"
                 := "<main><!--app-html--></main><!--app-html-->" ]};
     io := []; runtime := runtime (sampleWorld (Some "production")) |}.

Definition patternServer : Server := {|
  isProd := true;
  dirname := "/app";
  vite := None;
  importModule := fun _ => Normal {| render := fun _ => ret "<code>a $& b</code>" |};
  expressStatic := fun _ _ => ret None
|}.

(** Whether a [string | null] value is truthy, and the text it shows *)
Definition isPresent (o : option string) : bool :=
  match o with
  | Some s => negb (String.eqb s EmptyString)
  | None => false
  end.

Definition shownText (o : option string) : string :=
  match o with
  | Some s => s
  | None => EmptyString
  end.

(** The URL [userReposQuery(username).queryFn] fetches, and the label of
    its log line *)
Definition reposUrl (username : string) : string :=
  "https://api.github.com/users/" +:+ username +:+ "/repos".

Definition queryLogLabel (username : string) : string :=
  "Error fetching repos for " +:+ username +:+ ":".

(** The text one item of the list shows *)
Definition itemText (formatDate : string -> string) (repo : GitHubRepository) : string :=
  name repo +:+ shownText (description repo) +:+ shownText (language repo)
  +:+ star +:+ " " +:+ JsString.ofNat (stargazers_count repo)
  +:+ "Updated " +:+ formatDate (updated_at repo).

Fixpoint concatText (l : list string) : string :=
  match l with
  | [] => EmptyString
  | x :: r => x +:+ concatText r
  end.

(* ===================================================================== *)
(** * Part II: properties                                                 *)
(* ===================================================================== *)

(** ** Strings *)

Lemma append_assoc (a b c : string) : (a +:+ b) +:+ c = a +:+ b +:+ c.
Proof. induction a as [|x a IH]; cbn; [reflexivity | f_equal; exact IH]. Qed.

Lemma append_empty_r (a : string) : a +:+ EmptyString = a.
Proof. induction a as [|x a IH]; cbn; [reflexivity | f_equal; exact IH]. Qed.

Lemma Occurs_append_r (needle a s : string) :
  JsString.Occurs needle s -> JsString.Occurs needle (a +:+ s).
Proof.
  intros (before & after & ->). exists (a +:+ before), after.
  now rewrite append_assoc.
Qed.

Lemma Occurs_append_l (needle s b : string) :
  JsString.Occurs needle s -> JsString.Occurs needle (s +:+ b).
Proof.
  intros (before & after & ->). exists before, (after +:+ b).
  now rewrite !append_assoc.
Qed.

Lemma startsWith_append (p r : string) : JsString.startsWith p (p +:+ r) = true.
Proof.
  induction p as [| a p IH]; [reflexivity |].
  cbn. now rewrite Ascii.eqb_refl.
Qed.

Lemma startsWith_split (p s : string) :
  JsString.startsWith p s = true -> s = p +:+ JsString.drop (String.length p) s.
Proof.
  revert s. induction p as [| a p IH]; intros s H; [reflexivity |].
  destruct s as [| b s]; [discriminate |]. cbn in H |- *.
  destruct (Ascii.eqb a b) eqn:E; [| discriminate].
  apply Ascii.eqb_eq in E as ->. f_equal. now apply IH.
Qed.

Lemma drop_length_append (p r : string) : JsString.drop (String.length p) (p +:+ r) = r.
Proof. induction p as [| a p IH]; [reflexivity | exact IH]. Qed.

Lemma includes_unfold (needle s : string) :
  JsString.includes needle s
  = JsString.startsWith needle s
    || match s with
       | EmptyString => false
       | String _ s' => JsString.includes needle s'
       end.
Proof.
  unfold JsString.includes.
  destruct s as [| c s]; cbn; destruct (JsString.startsWith needle _); try reflexivity.
  now destruct (JsString.splitFirst needle s) as [[? ?] |].
Qed.

Lemma splitFirst_sound (needle s before after : string) :
  JsString.splitFirst needle s = Some (before, after) -> s = before +:+ needle +:+ after.
Proof.
  revert before after. induction s as [| c s IH]; intros before after H.
  - cbn in H. destruct (JsString.startsWith needle EmptyString) eqn:E; [| discriminate].
    injection H as <- <-. now apply startsWith_split.
  - cbn in H. destruct (JsString.startsWith needle (String c s)) eqn:E.
    + injection H as <- <-. now apply startsWith_split.
    + destruct (JsString.splitFirst needle s) as [[b a] |]; [| discriminate].
      injection H as <- <-. cbn. f_equal. now apply IH.
Qed.

(** [includes] decides [Occurs]. *)
Lemma includes_Occurs (needle s : string) :
  JsString.includes needle s = true <-> JsString.Occurs needle s.
Proof.
  split.
  - unfold JsString.includes.
    destruct (JsString.splitFirst needle s) as [[before after] |] eqn:E; [| discriminate].
    intros _. exists before, after. now apply splitFirst_sound.
  - intros (before & after & ->).
    induction before as [| c before IH]; rewrite includes_unfold.
    + cbn. now rewrite startsWith_append.
    + cbn [String.append]. rewrite IH. apply orb_true_r.
Qed.

(** A match of [String c p] cannot begin before the end of [x] and run
    into a text [y] that begins with [c], when [c] does not occur in [p]. *)
Lemma startsWith_tail_boundary (c : ascii) (p x y : string) :
  JsString.hasChar c p = false ->
  JsString.firstChar y = Some c ->
  JsString.startsWith p (x +:+ y) = true ->
  JsString.startsWith p x = true.
Proof.
  intros Hp Hy. revert x. induction p as [| b p IH]; intros x H; [reflexivity |].
  cbn in Hp. apply orb_false_elim in Hp as [Hb Hp].
  destruct x as [| a x].
  - cbn in H. destruct y as [| d y]; [discriminate |].
    cbn in Hy. injection Hy as ->. cbn in H.
    rewrite Hb in H. discriminate.
  - cbn in H |- *. destruct (Ascii.eqb b a); [| discriminate]. now apply IH.
Qed.

Lemma startsWith_boundary (c : ascii) (p x y : string) :
  JsString.hasChar c p = false ->
  JsString.firstChar y = Some c ->
  x <> EmptyString ->
  JsString.startsWith (String c p) (x +:+ y) = true ->
  JsString.startsWith (String c p) x = true.
Proof.
  intros Hp Hy Hx H. destruct x as [| a x]; [contradiction |].
  cbn in H |- *. destruct (Ascii.eqb c a); [| discriminate].
  now apply (startsWith_tail_boundary c p x y).
Qed.

(** A match of [p] cannot begin in a text [x] that ends with [c] and run
    past its end, when [c] occurs in [p] at the end only. *)
Lemma startsWith_end_boundary (c : ascii) (p x y : string) :
  JsString.onlyAtEnd c p = true ->
  JsString.lastChar x = Some c ->
  JsString.startsWith p (x +:+ y) = true ->
  JsString.startsWith p x = true.
Proof.
  revert x. induction p as [| b p IH]; intros x Hp Hx H; [reflexivity |].
  destruct x as [| a x]; [discriminate |].
  cbn [String.append JsString.startsWith] in H |- *.
  destruct (Ascii.eqb b a) eqn:E; [| discriminate].
  destruct p as [| b' p]; [reflexivity |].
  destruct x as [| a' x].
  - cbn in Hx. injection Hx as ->.
    cbn in Hp. rewrite E in Hp. discriminate.
  - apply IH; [| exact Hx | exact H].
    cbn in Hp. apply andb_prop in Hp as [_ Hp]. exact Hp.
Qed.

Lemma firstChar_append (x y : string) (c : ascii) :
  JsString.firstChar x = Some c -> JsString.firstChar (x +:+ y) = Some c.
Proof. destruct x; [discriminate | trivial]. Qed.

(** With a pattern [String c p] in which [c] does not occur again, the
    first occurrence in [before ++ pattern ++ after] is the one written,
    provided [before] holds none. *)
Lemma splitFirst_append (c : ascii) (p before after : string) :
  JsString.hasChar c p = false ->
  JsString.includes (String c p) before = false ->
  JsString.splitFirst (String c p) (before +:+ String c p +:+ after) = Some (before, after).
Proof.
  intros Hp. set (pattern := String c p) in *.
  assert (Hfirst : JsString.firstChar (pattern +:+ after) = Some c) by reflexivity.
  induction before as [| a before IH]; intros Hbefore.
  - change (EmptyString +:+ pattern +:+ after) with (pattern +:+ after).
    assert (Hsplit : forall s, JsString.startsWith pattern s = true ->
              JsString.splitFirst pattern s
              = Some (EmptyString, JsString.drop (String.length pattern) s)).
    { intros s Hs. destruct s; cbn [JsString.splitFirst]; now rewrite Hs. }
    rewrite Hsplit by apply startsWith_append.
    now rewrite drop_length_append.
  - rewrite includes_unfold in Hbefore. apply orb_false_elim in Hbefore as [Hstart Hrest].
    change (String a before +:+ pattern +:+ after)
      with (String a (before +:+ pattern +:+ after)).
    cbn [JsString.splitFirst].
    destruct (JsString.startsWith pattern (String a (before +:+ pattern +:+ after))) eqn:E.
    + change (String a (before +:+ pattern +:+ after))
        with (String a before +:+ pattern +:+ after) in E.
      apply (startsWith_boundary c p (String a before)) in E;
        [subst pattern; congruence | exact Hp | exact Hfirst | discriminate].
    + now rewrite IH.
Qed.

(** No occurrence of the pattern arises at the seams when a fragment that
    begins with the pattern's first character and ends with its last one is
    put between two texts, these characters occurring nowhere else in the
    pattern. *)
Lemma includes_sandwich (c d : ascii) (p before fragment after : string) :
  JsString.hasChar c p = false ->
  JsString.onlyAtEnd d (String c p) = true ->
  JsString.firstChar fragment = Some c ->
  JsString.lastChar fragment = Some d ->
  JsString.includes (String c p) before = false ->
  JsString.includes (String c p) fragment = false ->
  JsString.includes (String c p) after = false ->
  JsString.includes (String c p) (before +:+ fragment +:+ after) = false.
Proof.
  intros Hc Hd Hfirst Hlast Hbefore Hfragment Hafter.
  assert (Htail : JsString.includes (String c p) (fragment +:+ after) = false).
  { clear Hfirst Hbefore. induction fragment as [| a fragment IH]; [exact Hafter |].
    rewrite includes_unfold in Hfragment |- *.
    apply orb_false_elim in Hfragment as [Hstart Hrest].
    cbn [String.append]. apply orb_false_intro.
    - destruct (JsString.startsWith (String c p) (String a (fragment +:+ after))) eqn:E;
        [| reflexivity].
      apply (startsWith_end_boundary d (String c p) (String a fragment)) in E;
        [congruence | exact Hd | exact Hlast].
    - destruct fragment as [| a' fragment]; [exact Hafter |].
      apply IH; [exact Hlast | exact Hrest]. }
  induction before as [| a before IH]; [exact Htail |].
  rewrite includes_unfold in Hbefore |- *.
  apply orb_false_elim in Hbefore as [Hstart Hrest].
  cbn [String.append]. apply orb_false_intro.
  - destruct (JsString.startsWith (String c p) (String a (before +:+ fragment +:+ after)))
      eqn:E; [| reflexivity].
    apply (startsWith_boundary c p (String a before)) in E;
      [congruence | exact Hc | now apply firstChar_append | discriminate].
  - now apply IH.
Qed.

(** A replacement text without special patterns is inserted as it is. *)
Lemma GetSubstitution_plain (matched before after replacement : string) :
  JsString.plainReplacement replacement = true ->
  JsString.GetSubstitution matched before after replacement = replacement.
Proof.
  induction replacement as [| c rest IH]; intros Hplain; [reflexivity |].
  cbn [JsString.GetSubstitution JsString.plainReplacement] in Hplain |- *.
  destruct (Ascii.eqb c "$").
  - destruct rest as [| d rest']; [reflexivity |].
    apply andb_prop in Hplain as [Hd Hrest].
    apply negb_true_iff in Hd.
    apply orb_false_elim in Hd as [Hd H4]. apply orb_false_elim in Hd as [Hd H3].
    apply orb_false_elim in Hd as [H1 H2].
    rewrite H1, H2, H3, H4. f_equal. now apply IH.
  - f_equal. now apply IH.
Qed.

(** ** The repository query *)


(** [userReposQuery(username).queryFn], case by case on what [fetch] and
    [response.json()] do. *)
Lemma queryFn_cases (username : string) (h : Host) :
  let url := "https://api.github.com/users/" +:+ username +:+ "/repos" in
  let h1 := recordFetch url h in
  let label := "Error fetching repos for " +:+ username +:+ ":" in
  let failure kind msg :=
    ThrownError {| errorName := kind; message := msg; stack := stackOf h kind msg |} in
  queryFn (userReposQuery username) h =
  match network h url with
  | Rejected msg =>
      (Throw (failure "TypeError" msg), recordConsole label (failure "TypeError" msg) h1)
  | Resolved response =>
      if ok response then
        match json response with
        | Parsed data => (Normal data, h1)
        | Malformed msg =>
            (Throw (failure "SyntaxError" msg),
             recordConsole label (failure "SyntaxError" msg) h1)
        end
      else if status response =? 404 then
        let msg := "User " +:+ dquote +:+ username +:+ dquote +:+ " not found" in
        (Throw (failure "Error" msg), recordConsole label (failure "Error" msg) h1)
      else
        let msg := "Failed to load repos for " +:+ username +:+ ": " +:+ statusText response in
        (Throw (failure "Error" msg), recordConsole label (failure "Error" msg) h1)
  end.
Proof.
  cbn -[String.append]. unfold tryCatch, bind, fetch.
  destruct (network h _) as [response | msg]; [| reflexivity].
  destruct (ok response); cbn -[String.append].
  - unfold responseJson. destruct (json response); reflexivity.
  - destruct (status response =? 404); reflexivity.
Qed.



(** The two cases of the specification's examples, on the sample network. *)
Example queryFn_octocat :
  fst (queryFn (userReposQuery "octocat") (sampleHost None)) = Normal [].
Proof. reflexivity. Qed.

Example queryFn_doesnotexist :
  exists e, fst (queryFn (userReposQuery "doesnotexist123") (sampleHost None))
            = Throw (ThrownError e)
            /\ message e = "User " +:+ dquote +:+ "doesnotexist123" +:+ dquote +:+ " not found".
Proof. eexists. split; reflexivity. Qed.

(** ** The SSR handler *)

(** The handler, case by case on what the disk, Vite, the module loader,
    the URL parser and the loaded [render] do. *)
Lemma ssrHandler_cases (srv : Server) (req : ExpressRequest) (w : World) :
  let url := originalUrl req in
  let h := host (runtime w) in
  let request := renderRequest (env h) url in
  let out status body events rt :=
    (Normal {| statusCode := status; contentType := "text/html"; sent := body |},
     {| files := files w; io := io w ++ events; runtime := rt |}) in
  let failed error events rt :=
    out 500 (errorPage (diagnosticText error))
        (events ++ [ConsoleError "Error during SSR:" error]) rt in
  let rendered m template events :=
    match parseURL h (requestInput (env h) url) with
    | UrlRejected msg =>
        failed (ThrownError {| errorName := "TypeError"; message := msg;
                               stack := stackOf h "TypeError" msg |})
               events (runtime w)
    | UrlAccepted =>
        match render m request (runtime w) with
        | (Normal appHtml, rt) =>
            out 200 (JsString.replace template placeholder appHtml)
                (events ++ [Render request]) rt
        | (Throw error, rt) => failed error (events ++ [Render request]) rt
        end
    end in
  ssrHandler srv req w =
  match (if isProd srv then None else vite srv) with
  | Some v =>
      let path := resolve srv "index.html" in
      match files w !! path with
      | None => failed (enoent (host (runtime w)) path) [ReadFile path] (runtime w)
      | Some shell =>
          match transformIndexHtml v url shell with
          | Throw error => failed error [ReadFile path; TransformIndexHtml url] (runtime w)
          | Normal template =>
              let events := [ReadFile path; TransformIndexHtml url;
                             SsrLoadModule "/src/entry-server.tsx"] in
              match ssrLoadModule v "/src/entry-server.tsx" with
              | Throw error => failed error events (runtime w)
              | Normal m => rendered m template events
              end
          end
      end
  | None =>
      let path := resolve srv "dist/client/index.html" in
      match files w !! path with
      | None => failed (enoent (host (runtime w)) path) [ReadFile path] (runtime w)
      | Some template =>
          let events := [ReadFile path; Import "./dist/server/entry-server.js"] in
          match importModule srv "./dist/server/entry-server.js" with
          | Throw error => failed error events (runtime w)
          | Normal m => rendered m template events
          end
      end
  end.
Proof.
  intros url h request out failed rendered.
  subst out failed rendered. cbv beta.
  unfold ssrHandler, tryCatch, bind, readFileSync, record, modify, liftCompletion,
    gets, onRuntime, ret, newRequest.
  cbn -[String.append JsString.replace errorPage resolve renderRequest requestInput].
  fold url. fold h.
  destruct (if isProd srv then None else vite srv) as [v |].
  - destruct (files w !! resolve srv "index.html") as [shell |];
      cbn -[String.append JsString.replace errorPage resolve renderRequest requestInput];
      [| now rewrite <- !app_assoc].
    destruct (transformIndexHtml v url shell) as [template | error];
      cbn -[String.append JsString.replace errorPage resolve renderRequest requestInput];
      [| now rewrite <- !app_assoc].
    destruct (ssrLoadModule v _) as [m | error];
      cbn -[String.append JsString.replace errorPage resolve renderRequest requestInput];
      [| now rewrite <- !app_assoc].
    fold h.
    destruct (parseURL h (requestInput (env h) url)) as [| msg];
      cbn -[String.append JsString.replace errorPage resolve renderRequest requestInput];
      [| now rewrite <- !app_assoc].
    change (requestOf (requestInput (env h) url)) with request.
    destruct (render m request (runtime w)) as [[appHtml | error] rt];
      cbn -[String.append JsString.replace errorPage resolve renderRequest requestInput];
      now rewrite <- !app_assoc.
  - destruct (files w !! resolve srv "dist/client/index.html") as [template |];
      cbn -[String.append JsString.replace errorPage resolve renderRequest requestInput];
      [| now rewrite <- !app_assoc].
    destruct (importModule srv _) as [m | error];
      cbn -[String.append JsString.replace errorPage resolve renderRequest requestInput];
      [| now rewrite <- !app_assoc].
    fold h.
    destruct (parseURL h (requestInput (env h) url)) as [| msg];
      cbn -[String.append JsString.replace errorPage resolve renderRequest requestInput];
      [| now rewrite <- !app_assoc].
    change (requestOf (requestInput (env h) url)) with request.
    destruct (render m request (runtime w)) as [[appHtml | error] rt];
      cbn -[String.append JsString.replace errorPage resolve renderRequest requestInput];
      now rewrite <- !app_assoc.
Qed.

Lemma eventsOf_app {A} (m : M World A) (w : World) (events : list IoEvent) :
  io (snd (m w)) = io w ++ events -> eventsOf m w = events.
Proof. unfold eventsOf. intros ->. apply drop_app_length. Qed.

(** Outside production a completed [initializeVite] always leaves a
    handle; in production it leaves none. *)
Lemma initializeVite_handle (production : bool) (createServer : Completion ViteDevServer)
    (handle : option ViteDevServer) :
  initializeVite production createServer = Normal handle ->
  if production then handle = None else exists v, handle = Some v /\ createServer = Normal v.
Proof.
  unfold initializeVite. destruct production; cbn.
  - now intros [= <-].
  - destruct createServer as [v | error]; [| discriminate].
    intros [= <-]. eauto.
Qed.

Lemma isProdOf_production (e : ProcessEnv) :
  isProdOf e = true <-> NODE_ENV e = Some "production".
Proof. unfold isProdOf. apply bool_decide_eq_true. Qed.

(** C10.  If the process is in non-production mode but the Vite handle is
    null, the handler takes the production branch: it reads the prebuilt
    [dist/client/index.html], then imports the prebuilt server bundle
    [./dist/server/entry-server.js], never transforms the shell or loads a
    module through Vite, and on success (the request URL parses and the
    bundle's [render] returns) sends the prebuilt shell with the
    placeholder replaced by what the bundle's [render] returned. *)
Theorem no_vite_handle_takes_production_branch
    (srv : Server) (req : ExpressRequest) (w : World) :
  isProd srv = false ->
  vite srv = None ->
  let shell := resolve srv "dist/client/index.html" in
  let request := renderRequest (env (host (runtime w))) (originalUrl req) in
  let events := eventsOf (ssrHandler srv req) w in
  (exists rest,
      events = ReadFile shell :: rest
      /\ (is_Some (files w !! shell) ->
          exists rest', rest = Import "./dist/server/entry-server.js" :: rest')
      /\ forallb (fun e => negb (isReadFile e || developmentOnly e)) rest = true)
  /\ (forall template m appHtml rt,
        files w !! shell = Some template ->
        importModule srv "./dist/server/entry-server.js" = Normal m ->
        parseURL (host (runtime w))
                 (requestInput (env (host (runtime w))) (originalUrl req)) = UrlAccepted ->
        render m request (runtime w) = (Normal appHtml, rt) ->
        fst (ssrHandler srv req w)
        = Normal {| statusCode := 200; contentType := "text/html";
                    sent := JsString.replace template placeholder appHtml |}).
Proof.
  intros Hprod Hvite shell request events. subst events.
  pose proof (ssrHandler_cases srv req w) as Hrun. cbv zeta in Hrun.
  rewrite Hprod, Hvite in Hrun. fold shell request in Hrun.
  split.
  - destruct (files w !! shell) as [template |] eqn:Hfile.
    + destruct (importModule srv _) as [m | error].
      * destruct (parseURL _ _) as [| msg];
          [destruct (render m request (runtime w)) as [[appHtml | error] rt] |];
          (erewrite eventsOf_app; [| rewrite Hrun; reflexivity]);
          eexists; (split; [reflexivity |]); (split; [eauto | reflexivity]).
      * (erewrite eventsOf_app; [| rewrite Hrun; reflexivity]).
        eexists. split; [reflexivity |]. split; [eauto | reflexivity].
    + (erewrite eventsOf_app; [| rewrite Hrun; reflexivity]).
      eexists. split; [reflexivity |]. split; [| reflexivity].
      intros [? ?]. discriminate.
  - intros template m appHtml rt Hfile Himport Hurl Hrender.
    rewrite Hrun, Hfile, Himport, Hurl, Hrender. reflexivity.
Qed.

Lemma no_vite_handle_witness :
  isProd bareServer = false
  /\ vite bareServer = None
  /\ parseURL (sampleHost (Some "development")) "http://localhost:3000/" = UrlAccepted
  /\ (exists rest,
         eventsOf (ssrHandler bareServer (get "/")) (sampleWorld (Some "development"))
         = ReadFile "/app/dist/client/index.html"
           :: Import "./dist/server/entry-server.js" :: rest)
  /\ fst (ssrHandler bareServer (get "/") (sampleWorld (Some "development")))
     = Normal {| statusCode := 200; contentType := "text/html";
                 sent := JsString.replace sampleShell placeholder
                           (staticMarkup (RootLayout (Some "development") HomePage)) |}.
Proof.
  split; [reflexivity |]. split; [reflexivity |]. split; [reflexivity |].
  destruct (no_vite_handle_takes_production_branch
              bareServer (get "/") (sampleWorld (Some "development"))
              eq_refl eq_refl) as [(rest & Hevents & Himport & _) Hsuccess].
  split.
  - destruct Himport as (rest' & ->); [vm_compute; eauto |].
    exists rest'. exact Hevents.
  - apply (Hsuccess sampleShell sampleModule
             (staticMarkup (RootLayout (Some "development") HomePage))
             (snd (render sampleModule (requestOf "http://localhost:3000/")
                     (runtime (sampleWorld (Some "development")))))).
    + reflexivity.
    + reflexivity.
    + reflexivity.
    + vm_compute. reflexivity.
Defined.

(** Case analysis on a run of the handler *)
Ltac handler_cases srv req w H :=
  pose proof (ssrHandler_cases srv req w) as H; cbv zeta in H;
  repeat match type of H with
         | context [match ?x with _ => _ end] => destruct x eqn:?
         end.

(** Every run of the handler ends normally, with the disk untouched and
    the log extended: the shell of the mode is read once, [render] receives
    the synthesized request, and the answer is 200 or 500, as [text/html]. *)
Lemma ssrHandler_completes (srv : Server) (req : ExpressRequest) (w : World) :
  exists response events rt,
    ssrHandler srv req w
    = (Normal response, {| files := files w; io := io w ++ events; runtime := rt |})
    /\ readsOf events = [shellPath srv]
    /\ Forall (fun q => q = renderRequest (env (host (runtime w))) (originalUrl req))
              (renderInputs events)
    /\ (statusCode response = 200 \/ statusCode response = 500)
    /\ contentType response = "text/html".
Proof.
  unfold shellPath.
  handler_cases srv req w H; rewrite H; do 3 eexists;
    (split; [reflexivity |]); cbn;
    repeat split; auto.
Qed.

(** C9.  The request object handed to [render] is synthesized from the
    original URL alone, on the origin [http://localhost:<PORT or 3000>]:
    two incoming requests with the same original URL, served by the same
    process in the same state, make the handler do exactly the same, and
    every request object [render] receives is [new Request] of that origin
    followed by the URL, with no header, method or body of the incoming
    request. *)
Theorem render_input_depends_on_url_only
    (srv : Server) (w : World) (r1 r2 : ExpressRequest) :
  originalUrl r1 = originalUrl r2 ->
  ssrHandler srv r1 w = ssrHandler srv r2 w
  /\ renderInputs (eventsOf (ssrHandler srv r1) w)
     = renderInputs (eventsOf (ssrHandler srv r2) w)
  /\ Forall (fun q : Request =>
               q = {| url := "http://localhost:" +:+ portText (env (host (runtime w)))
                             +:+ originalUrl r1;
                      requestMethod := "GET";
                      requestHeaders := [] |})
            (renderInputs (eventsOf (ssrHandler srv r1) w)).
Proof.
  intros Hurl.
  assert (Hsame : ssrHandler srv r1 w = ssrHandler srv r2 w).
  { rewrite !ssrHandler_cases. cbv zeta. now rewrite Hurl. }
  split; [exact Hsame |]. split.
  - unfold eventsOf. now rewrite Hsame.
  - destruct (ssrHandler_completes srv r1 w) as (response & events & rt & Hrun & _ & Hin & _).
    erewrite eventsOf_app; [| rewrite Hrun; reflexivity]. exact Hin.
Qed.

Lemma render_input_witness :
  originalUrl (get "/repos/octocat")
  = originalUrl {| method := HEAD; originalUrl := "/repos/octocat";
                   headers := [("cookie", "session=1"); ("x-forwarded-for", "10.0.0.1")];
                   body := "ignored" |}
  /\ renderInputs (eventsOf (ssrHandler productionServer (get "/repos/octocat"))
                            (sampleWorld (Some "production")))
     = renderInputs
         (eventsOf (ssrHandler productionServer
                      {| method := HEAD; originalUrl := "/repos/octocat";
                         headers := [("cookie", "session=1"); ("x-forwarded-for", "10.0.0.1")];
                         body := "ignored" |})
                   (sampleWorld (Some "production"))).
Proof.
  split; [reflexivity |].
  apply (render_input_depends_on_url_only productionServer (sampleWorld (Some "production"))
           (get "/repos/octocat")
           {| method := HEAD; originalUrl := "/repos/octocat";
              headers := [("cookie", "session=1"); ("x-forwarded-for", "10.0.0.1")];
              body := "ignored" |}).
  reflexivity.
Defined.

Example render_input_sample :
  renderInputs (eventsOf (ssrHandler productionServer (get "/repos/octocat"))
                         (sampleWorld (Some "production")))
  = [requestOf "http://localhost:3000/repos/octocat"].
Proof. vm_compute. reflexivity. Qed.

(** ** Reading the shell *)

Lemma readsOf_app (a b : list IoEvent) : readsOf (a ++ b) = readsOf a ++ readsOf b.
Proof.
  induction a as [| e a IH]; [reflexivity |].
  destruct e; cbn; now rewrite IH.
Qed.

Lemma handleAll_reads (srv : Server) (reqs : list ExpressRequest) :
  forall w, exists events,
    io (snd (handleAll srv reqs w)) = io w ++ events
    /\ readsOf events = replicate (length reqs) (shellPath srv).
Proof.
  induction reqs as [| req reqs IH]; intros w.
  - exists []. cbn. now rewrite app_nil_r.
  - destruct (ssrHandler_completes srv req w)
      as (response & events & rt & Hrun & Hreads & _).
    destruct (IH {| files := files w; io := io w ++ events; runtime := rt |})
      as (events' & Hio & Hreads').
    exists (events ++ events'). split.
    + cbn [handleAll]. unfold bind at 1. rewrite Hrun.
      unfold bind at 1.
      destruct (handleAll srv reqs _) as [[rs | error] w']; cbn in Hio |- *;
        now rewrite Hio, app_assoc.
    + rewrite readsOf_app, Hreads, Hreads'. reflexivity.
Qed.

(** C3, as the code has it.  In production mode, as in development mode,
    the shell is read from disk on every request: serving [n] requests
    reads the shell file of the mode [n] times, [dist/client/index.html] in
    the production branch and [index.html] in the development branch; no
    copy is kept between requests. *)
Theorem shell_read_on_every_request (srv : Server) (reqs : list ExpressRequest) (w : World) :
  readsOf (eventsOf (handleAll srv reqs) w) = replicate (length reqs) (shellPath srv).
Proof.
  destruct (handleAll_reads srv reqs w) as (events & Hio & Hreads).
  now rewrite (eventsOf_app _ _ _ Hio).
Qed.

(** C3, counterexample.  A production process serving two requests reads
    the prebuilt shell twice, not once; and when the file changes between
    the two requests the second response is built from the new content, so
    no in-memory copy of the first read is reused. *)
Lemma production_shell_read_per_request :
  isProd productionServer = true
  /\ readsOf (eventsOf (handleAll productionServer [get "/"; get "/"])
                       (sampleWorld (Some "production")))
     = ["/app/dist/client/index.html"; "/app/dist/client/index.html"]
  /\ (let w1 := snd (ssrHandler productionServer (get "/") (sampleWorld (Some "production"))) in
      let w2 := rewriteShell "<main><!--app-html--></main>" w1 in
      JsString.startsWith "<main>"
        (match fst (ssrHandler productionServer (get "/") w2) with
         | Normal response => sent response
         | Throw _ => EmptyString
         end) = true).
Proof. vm_compute. repeat split. Qed.

(** ** The HTTP surface *)








Example get_is_served_by_ssr :
  exists r, fst (dispatch (app productionServer) (get "/") (sampleWorld (Some "production")))
            = Normal (ByRoute r)
            /\ statusCode r = 200.
Proof. eexists. vm_compute. split; reflexivity. Qed.

(** ** The repositories page *)

Lemma ReposPageMarkup_empty (formatDate : string -> string) (username : string) :
  textContent (ReposPageMarkup formatDate username [])
  = "Repositories of " +:+ username
    +:+ "Showing 0 repositoriesNo public repositories found for this user.".
Proof. cbn. now rewrite append_empty_r. Qed.

Lemma textContent_RootLayout (nodeEnv : option string) (outlet : Node) :
  textContent (RootLayout nodeEnv outlet)
  = "HomeTanStack Repos" +:+ textContent outlet
    +:+ "SSR React App with TanStack Router & Query".
Proof.
  unfold RootLayout. destruct (decide (nodeEnv = Some "development"));
    cbn; now rewrite !append_empty_r.
Qed.

Lemma hasElement_RootLayout (tag : string) (nodeEnv : option string) (outlet : Node) :
  String.eqb "div" tag = false -> String.eqb "header" tag = false ->
  String.eqb "nav" tag = false -> String.eqb "main" tag = false ->
  String.eqb "footer" tag = false -> String.eqb "p" tag = false ->
  hasElement tag (RootLayout nodeEnv outlet) = hasElement tag outlet.
Proof.
  intros Hdiv Hheader Hnav Hmain Hfooter Hp.
  unfold RootLayout. destruct (decide (nodeEnv = Some "development"));
    cbn -[String.eqb]; rewrite Hdiv, Hheader, Hnav, Hmain, Hfooter, Hp; cbn;
    now rewrite !orb_false_r.
Qed.

(** C8.  When the repository query for a username resolves to an empty
    list, the page rendered for [/repos/<username>] contains the text
    [0 repositories] and the empty-state message [No public repositories
    found for this user.], and no repository list ([<ul>]) at all. *)
Theorem empty_repository_list_page (router : Router) (username : string) (rt : Runtime) :
  matches router = Some (ReposRoute username) ->
  fst (useSuspenseQuery (contextQueryClient router) (userReposQuery username) rt)
  = Normal [] ->
  exists tree,
    fst (RouterServer router rt) = Normal tree
    /\ JsString.Occurs "0 repositories" (textContent tree)
    /\ JsString.Occurs "No public repositories found for this user." (textContent tree)
    /\ hasElement "ul" tree = false.
Proof.
  intros Hmatch Hquery.
  unfold RouterServer, ReposPage, bind, gets, ret. rewrite Hmatch.
  destruct (useSuspenseQuery _ _ rt) as [outcome rt'].
  cbn in Hquery. subst outcome. cbn [fst].
  eexists. split; [reflexivity |].
  rewrite textContent_RootLayout, ReposPageMarkup_empty.
  repeat split.
  - apply Occurs_append_r, Occurs_append_l, Occurs_append_r, Occurs_append_r.
    now exists "Showing ", "No public repositories found for this user.".
  - apply Occurs_append_r, Occurs_append_l, Occurs_append_r, Occurs_append_r.
    now exists "Showing 0 repositories", EmptyString.
  - now rewrite hasElement_RootLayout.
Qed.

Lemma empty_repository_list_witness :
  matches {| contextQueryClient := 0; defaultPreload := "intent";
             matches := Some (ReposRoute "octocat") |}
  = Some (ReposRoute "octocat")
  /\ exists tree,
       fst (RouterServer
              {| contextQueryClient := 0; defaultPreload := "intent";
                 matches := Some (ReposRoute "octocat") |}
              (snd (getRouter (runtime (sampleWorld (Some "production"))))))
       = Normal tree
       /\ JsString.Occurs "0 repositories" (textContent tree)
       /\ JsString.Occurs "No public repositories found for this user." (textContent tree)
       /\ hasElement "ul" tree = false.
Proof.
  split; [reflexivity |].
  apply (empty_repository_list_page
           {| contextQueryClient := 0; defaultPreload := "intent";
              matches := Some (ReposRoute "octocat") |}
           "octocat"
           (snd (getRouter (runtime (sampleWorld (Some "production")))))).
  - reflexivity.
  - vm_compute. reflexivity.
Defined.

(** ** The query layer *)

Section GetOrFetch.

Context {V St : Type}.
Implicit Types (cache : gmap (list string) (CacheEntry V)) (fetchFn : M St V).



Lemma fetchWithRetry_first_success fetchFn (retry failures : nat) (s s1 : St) (v : V) :
  fetchFn s = (Normal v, s1) ->
  fetchWithRetry retry fetchFn failures s = (Normal (v, failures), s1).
Proof.
  intros Hfetch. destruct retry; cbn; unfold tryCatch, bind; now rewrite Hfetch.
Qed.

End GetOrFetch.




(** Past the staleness window the value is fetched again. *)
Lemma getOrFetch_refetches_when_stale {V St : Type}
    (retry : nat) (key : list string) (fetchFn : M St V) (staleTimeMs t1 t2 : Z)
    (cache : gmap (list string) (CacheEntry V)) (s s1 : St) (v v' : V) (failures : nat) :
  staleTimeMs <= t2 - t1 ->
  fetchFn s = (Normal v', s1) ->
  getOrFetch retry t2 key (counted fetchFn) staleTimeMs
    (<[key := {| data := v; dataUpdatedAt := t1; failureCount := failures |}]> cache,
     (s, 0%nat))
  = (Normal v',
     (<[key := {| data := v'; dataUpdatedAt := t2; failureCount := 0 |}]> cache,
      (s1, 1%nat))).
Proof.
  intros Hstale Hfetch.
  unfold getOrFetch, cachedValue, notExpired. rewrite lookup_insert_eq. cbn.
  apply Z.ltb_ge in Hstale as ->.
  rewrite (fetchWithRetry_first_success (counted fetchFn) retry 0 (s, 0%nat) (s1, 1%nat) v').
  - now rewrite insert_insert_eq.
  - cbn. now rewrite Hfetch.
Qed.

(** ** One cache per request *)

Lemma getRouter_run (rt : Runtime) :
  getRouter rt
  = (Normal {| contextQueryClient := length (clients rt);
               defaultPreload := "intent"; matches := None |},
     {| clients := clients rt ++ [freshClient]; host := host rt; now := now rt |}).
Proof. reflexivity. Qed.

(** [ensureQueryData] on the client created last *)
Lemma ensureQueryData_last (cs : list QueryClient) (qc : QueryClient) (h : Host) (n : Z)
    (options : QueryOptions) :
  ensureQueryData (length cs) options {| clients := cs ++ [qc]; host := h; now := n |}
  = let '(r, (cache, h')) :=
      getOrFetch (retry qc) n (queryKey options) (queryFn options) (staleTime options)
        (queries qc, h) in
    (r, {| clients := cs ++ [withQueries cache qc]; host := h'; now := n |}).
Proof.
  unfold ensureQueryData. cbn [clients host now].
  rewrite list_lookup_middle by reflexivity.
  destruct (getOrFetch _ _ _ _ _ _) as [r [cache h']].
  rewrite insert_app_r_alt by reflexivity.
  now rewrite Nat.sub_diag.
Qed.

(** An operation on one client leaves every other client as it is. *)
Lemma ensureQueryData_frame (client other : nat) (options : QueryOptions) (rt : Runtime) :
  other <> client ->
  clients (snd (ensureQueryData client options rt)) !! other = clients rt !! other.
Proof.
  intros Hother. unfold ensureQueryData.
  destruct (clients rt !! client) as [qc |]; [| reflexivity].
  destruct (getOrFetch _ _ _ _ _ _) as [r [cache h']]. cbn.
  now apply list_lookup_insert_ne.
Qed.

(** An operation on one client depends on that client, the host and the
    clock only. *)
Lemma ensureQueryData_local (client : nat) (options : QueryOptions) (rt1 rt2 : Runtime) :
  clients rt1 !! client = clients rt2 !! client ->
  host rt1 = host rt2 ->
  now rt1 = now rt2 ->
  fst (ensureQueryData client options rt1) = fst (ensureQueryData client options rt2)
  /\ clients (snd (ensureQueryData client options rt1)) !! client
     = clients (snd (ensureQueryData client options rt2)) !! client
  /\ host (snd (ensureQueryData client options rt1))
     = host (snd (ensureQueryData client options rt2)).
Proof.
  intros Hclient Hhost Hnow. unfold ensureQueryData.
  rewrite <- Hclient, <- Hhost, <- Hnow.
  destruct (clients rt1 !! client) as [qc |] eqn:H1.
  - destruct (getOrFetch _ _ _ _ _ _) as [r [cache h']]. cbn.
    repeat split.
    rewrite !list_lookup_insert_eq; [reflexivity | |].
    + apply lookup_lt_is_Some. rewrite <- Hclient. eauto.
    + apply lookup_lt_is_Some. eauto.
  - cbn. rewrite H1. auto.
Qed.

(** [render] with the routing library's handler, on a runtime holding the
    clients [cs] of other requests. *)
Lemma render_run (renderToString : Node -> string) (request : Request)
    (cs : list QueryClient) (h : Host) (n : Z) :
  let done (html : string) cache h' :=
    (Normal html, {| clients := cs ++ [withQueries cache freshClient]; host := h'; now := n |}) in
  let caught error cache h' :=
    done (EntryServer.errorFragment error) cache
         (recordConsole "Error during SSR render:" error h') in
  let page h' outlet := renderToString (RootLayout (NODE_ENV (env h')) outlet) in
  EntryServer.render renderToString tanstackRequestHandler request
    {| clients := cs; host := h; now := n |}
  = match matchRoute (pathnameOf (url request)) with
    | IndexRoute => done (page h HomePage) ∅ h
    | NotFoundRoute => done (page h (Library "NotFound" [] [])) ∅ h
    | ReposRoute username =>
        let options := userReposQuery username in
        let read := getOrFetch 1 n (queryKey options) (queryFn options) (staleTime options) in
        match read (∅, h) with
        | (Normal _, (cache1, h1)) =>
            match read (cache1, h1) with
            | (Normal repos, (cache2, h2)) =>
                done (page h1 (ReposPageMarkup (toLocaleDateString h2) username repos))
                     cache2 h2
            | (Throw error, (cache2, h2)) => caught error cache2 h2
            end
        | (Throw error, (cache1, h1)) => caught error cache1 h1
        end
    end.
Proof.
  intros done caught page. subst done caught page. cbv beta.
  unfold EntryServer.render, tanstackRequestHandler, tryCatch.
  unfold bind at 1 2 3. rewrite getRouter_run. cbn [clients host now contextQueryClient].
  destruct (matchRoute (pathnameOf (url request))) as [| username |].
  - reflexivity.
  - unfold bind at 1 2. unfold loader. rewrite ensureQueryData_last.
    cbn [retry queries freshClient].
    destruct (getOrFetch 1 n _ _ _ (∅, h)) as [[repos | error] [cache1 h1]].
    + cbn -[getOrFetch userReposQuery RootLayout ReposPageMarkup].
      unfold EntryServer.renderCallback, RouterServer, ReposPage, useSuspenseQuery.
      cbn -[getOrFetch userReposQuery RootLayout ReposPageMarkup ensureQueryData].
      unfold bind at 1 2 3 4. unfold gets at 1.
      cbn -[getOrFetch userReposQuery RootLayout ReposPageMarkup ensureQueryData].
      rewrite ensureQueryData_last.
      cbn [retry queries withQueries freshClient].
      destruct (getOrFetch 1 n _ _ _ (cache1, h1)) as [[repos2 | error] [cache2 h2]];
        reflexivity.
    + reflexivity.
  - reflexivity.
Qed.

(** C4.  Every call of [render] gets its own freshly constructed cache:
    [getRouter] creates a new, empty [QueryClient] at a position no
    existing client has; serving a request in a runtime that holds the
    clients of other requests, whatever they have cached, returns the same
    HTML and has the same effect on the host as serving it with no other
    client at all; and it leaves every existing client as it is, adding
    exactly the one client it created.  So no value cached while serving
    one request is observable while serving another. *)
Theorem render_cache_isolation
    (renderToString : Node -> string) (request : Request) (rt : Runtime) :
  let run := EntryServer.render renderToString tanstackRequestHandler request in
  let alone := run {| clients := []; host := host rt; now := now rt |} in
  (exists router,
      fst (getRouter rt) = Normal router
      /\ contextQueryClient router = length (clients rt)
      /\ clients (snd (getRouter rt)) = clients rt ++ [freshClient])
  /\ fst (run rt) = fst alone
  /\ host (snd (run rt)) = host (snd alone)
  /\ exists qc, clients (snd (run rt)) = clients rt ++ [qc] /\ clients (snd alone) = [qc].
Proof.
  intros run alone. subst run alone. split.
  - rewrite getRouter_run. eexists. repeat split.
  - destruct rt as [cs h n]. cbn [clients host now].
    rewrite !render_run. cbv zeta.
    destruct (matchRoute (pathnameOf (url request))) as [| username |];
      [repeat split; eexists; split; reflexivity | | repeat split; eexists; split; reflexivity].
    destruct (getOrFetch 1 n _ _ _ (∅, h)) as [[repos | error] [cache1 h1]];
      [| repeat split; eexists; split; reflexivity].
    destruct (getOrFetch 1 n _ _ _ (cache1, h1)) as [[repos2 | error] [cache2 h2]];
      repeat split; eexists; split; reflexivity.
Qed.

(** Two requests for the same user, served one after the other by one
    process: each fetches for itself, and each leaves its own client. *)
Example two_requests_two_fetches :
  let run := EntryServer.render staticMarkup tanstackRequestHandler
               (requestOf "http://localhost:3000/repos/octocat") in
  let rt2 := snd (run (snd (run (runtime (sampleWorld (Some "production")))))) in
  fetched (host rt2) = ["https://api.github.com/users/octocat/repos";
                        "https://api.github.com/users/octocat/repos"]
  /\ length (clients rt2) = 2%nat.
Proof. vm_compute. split; reflexivity. Qed.

(** Within one request the loader fetches and the component reads the
    cached value: the API is called once. *)
Example one_request_one_fetch :
  let run := EntryServer.render staticMarkup tanstackRequestHandler
               (requestOf "http://localhost:3000/repos/octocat") in
  fetched (host (snd (run (runtime (sampleWorld (Some "production"))))))
  = ["https://api.github.com/users/octocat/repos"].
Proof. vm_compute. reflexivity. Qed.

(** ** Failures inside [render] *)

Section RenderFailures.

Variable renderToString : Node -> string.
Variable createRequestHandler :
  Request -> M Runtime Router -> (Router -> M Runtime WebResponse) -> M Runtime WebResponse.

(** [render] never throws: whatever the routing library does inside the
    [try] block, [render] completes with an HTML string. *)
Lemma render_never_throws (request : Request) (rt : Runtime) :
  exists html rt',
    EntryServer.render renderToString createRequestHandler request rt = (Normal html, rt').
Proof.
  unfold EntryServer.render, tryCatch.
  destruct (bind _ _ rt) as [[html | error] rt']; cbn; eauto.
Qed.

(** An exception that leaves the request handler is caught by [render],
    logged, and turned into the error fragment. *)
Lemma render_catches (request : Request) (rt rt' : Runtime) (error : Thrown) :
  createRequestHandler request getRouter (EntryServer.renderCallback renderToString) rt
  = (Throw error, rt') ->
  EntryServer.render renderToString createRequestHandler request rt
  = (Normal (EntryServer.errorFragment error),
     {| clients := clients rt';
        host := recordConsole "Error during SSR render:" error (host rt');
        now := now rt' |}).
Proof.
  intros Hthrow. unfold EntryServer.render, tryCatch, bind. now rewrite Hthrow.
Qed.

End RenderFailures.

(** When the shell and the module are obtained, the request URL parses and
    [render] completes, the handler answers 200 with the placeholder
    replaced, and its [catch] branch is not entered. *)
Lemma ssrHandler_renders (srv : Server) (req : ExpressRequest) (w : World)
    (template appHtml : string) (m : SsrModule) (rt : Runtime) :
  templateOf srv (originalUrl req) w = Some template ->
  moduleOf srv = Normal m ->
  parseURL (host (runtime w)) (requestInput (env (host (runtime w))) (originalUrl req))
  = UrlAccepted ->
  render m (renderRequest (env (host (runtime w))) (originalUrl req)) (runtime w)
  = (Normal appHtml, rt) ->
  exists events,
    ssrHandler srv req w
    = (Normal {| statusCode := 200; contentType := "text/html";
                 sent := JsString.replace template placeholder appHtml |},
       {| files := files w; io := io w ++ events; runtime := rt |})
    /\ forallb (fun e => negb (isConsoleError e)) events = true.
Proof.
  unfold templateOf, moduleOf, shellPath. intros Htemplate Hmodule Hurl Hrender.
  pose proof (ssrHandler_cases srv req w) as Hrun. cbv zeta in Hrun.
  destruct (if isProd srv then None else vite srv) as [v |].
  - destruct (files w !! resolve srv "index.html") as [shell |]; [| discriminate].
    destruct (transformIndexHtml v _ shell) as [template' | error]; [| discriminate].
    injection Htemplate as ->. rewrite Hmodule, Hurl, Hrender in Hrun.
    eexists. split; [exact Hrun | reflexivity].
  - destruct (files w !! resolve srv "dist/client/index.html") as [shell |]; [| discriminate].
    injection Htemplate as ->. rewrite Hmodule, Hurl, Hrender in Hrun.
    eexists. split; [exact Hrun | reflexivity].
Qed.

(** When the shell and the module are obtained and the request URL does
    not parse, [new Request] throws inside the [try] block: the handler
    answers 500 with the [TypeError], and [render] is not called. *)
Lemma ssrHandler_rejects_url (srv : Server) (req : ExpressRequest) (w : World)
    (template msg : string) (m : SsrModule) :
  templateOf srv (originalUrl req) w = Some template ->
  moduleOf srv = Normal m ->
  parseURL (host (runtime w)) (requestInput (env (host (runtime w))) (originalUrl req))
  = UrlRejected msg ->
  exists events,
    ssrHandler srv req w
    = (Normal {| statusCode := 500; contentType := "text/html";
                 sent := errorPage (stackOf (host (runtime w)) "TypeError" msg) |},
       {| files := files w; io := io w ++ events; runtime := runtime w |})
    /\ renderInputs events = [].
Proof.
  unfold templateOf, moduleOf, shellPath. intros Htemplate Hmodule Hurl.
  pose proof (ssrHandler_cases srv req w) as Hrun. cbv zeta in Hrun.
  destruct (if isProd srv then None else vite srv) as [v |].
  - destruct (files w !! resolve srv "index.html") as [shell |]; [| discriminate].
    destruct (transformIndexHtml v _ shell) as [template' | error]; [| discriminate].
    rewrite Hmodule, Hurl in Hrun.
    eexists. split; [exact Hrun | reflexivity].
  - destruct (files w !! resolve srv "dist/client/index.html") as [shell |]; [| discriminate].
    rewrite Hmodule, Hurl in Hrun.
    eexists. split; [exact Hrun | reflexivity].
Qed.

(** The handler answers 500 exactly when the shell or the server entry
    module cannot be obtained or the request URL does not parse, the
    module being the repository's [render]. *)
Lemma ssrHandler_500_outside_render
    (renderToString : Node -> string)
    (createRequestHandler :
       Request -> M Runtime Router -> (Router -> M Runtime WebResponse) -> M Runtime WebResponse)
    (srv : Server) (req : ExpressRequest) (w : World) (response : Response) :
  (forall m, moduleOf srv = Normal m ->
             m = {| render := EntryServer.render renderToString createRequestHandler |}) ->
  fst (ssrHandler srv req w) = Normal response ->
  statusCode response = 500 <->
  (templateOf srv (originalUrl req) w = None
   \/ (exists error, moduleOf srv = Throw error)
   \/ (exists msg,
         parseURL (host (runtime w)) (requestInput (env (host (runtime w))) (originalUrl req))
         = UrlRejected msg)).
Proof.
  intros Hrepo Hrun.
  destruct (templateOf srv (originalUrl req) w) as [template |] eqn:Htemplate.
  - destruct (moduleOf srv) as [m | error] eqn:Hmodule.
    + destruct (parseURL (host (runtime w)) _) as [| msg] eqn:Hurl.
      * destruct (render_never_throws renderToString createRequestHandler
                    (renderRequest (env (host (runtime w))) (originalUrl req)) (runtime w))
          as (html & rt & Hrender).
        rewrite (Hrepo m eq_refl) in Hmodule.
        destruct (ssrHandler_renders srv req w template html _ rt Htemplate Hmodule Hurl Hrender)
          as (events & Hrun' & _).
        rewrite Hrun' in Hrun. injection Hrun as <-. cbn.
        split; [discriminate | intros [? | [(? & ?) | (? & ?)]]; discriminate].
      * destruct (ssrHandler_rejects_url srv req w template msg m Htemplate Hmodule Hurl)
          as (events & Hrun' & _).
        rewrite Hrun' in Hrun. injection Hrun as <-. cbn. split; eauto.
    + split; [eauto |]. intros _.
      unfold templateOf, moduleOf, shellPath in *.
      pose proof (ssrHandler_cases srv req w) as Hcases. cbv zeta in Hcases.
      destruct (if isProd srv then None else vite srv) as [v |].
      * destruct (files w !! resolve srv "index.html"); [| discriminate].
        destruct (transformIndexHtml v _ _); [| discriminate].
        rewrite Hmodule in Hcases. rewrite Hcases in Hrun. now injection Hrun as <-.
      * destruct (files w !! resolve srv "dist/client/index.html"); [| discriminate].
        rewrite Hmodule in Hcases. rewrite Hcases in Hrun. now injection Hrun as <-.
  - split; [eauto |]. intros _.
    unfold templateOf, shellPath in *.
    pose proof (ssrHandler_cases srv req w) as Hcases. cbv zeta in Hcases.
    destruct (if isProd srv then None else vite srv) as [v |].
    + destruct (files w !! resolve srv "index.html").
      * destruct (transformIndexHtml v _ _); [discriminate |].
        rewrite Hcases in Hrun. now injection Hrun as <-.
      * rewrite Hcases in Hrun. now injection Hrun as <-.
    + destruct (files w !! resolve srv "dist/client/index.html"); [discriminate |].
      rewrite Hcases in Hrun. now injection Hrun as <-.
Qed.

(** A request whose URL parses, for a process whose shell is on disk and
    whose server entry module is the repository's [render], is answered
    200 with the handler's [catch] branch not entered, whatever the
    routing library's request handler does. *)
Lemma ssrHandler_200_whatever_render_meets
    (renderToString : Node -> string)
    (createRequestHandler :
       Request -> M Runtime Router -> (Router -> M Runtime WebResponse) -> M Runtime WebResponse)
    (srv : Server) (req : ExpressRequest) (w : World) (template : string) :
  templateOf srv (originalUrl req) w = Some template ->
  moduleOf srv = Normal {| render := EntryServer.render renderToString createRequestHandler |} ->
  parseURL (host (runtime w)) (requestInput (env (host (runtime w))) (originalUrl req))
  = UrlAccepted ->
  exists appHtml events rt,
    EntryServer.render renderToString createRequestHandler
      (renderRequest (env (host (runtime w))) (originalUrl req)) (runtime w)
    = (Normal appHtml, rt)
    /\ ssrHandler srv req w
       = (Normal {| statusCode := 200; contentType := "text/html";
                    sent := JsString.replace template placeholder appHtml |},
          {| files := files w; io := io w ++ events; runtime := rt |})
    /\ forallb (fun e => negb (isConsoleError e)) events = true.
Proof.
  intros Htemplate Hmodule Hurl.
  destruct (render_never_throws renderToString createRequestHandler
              (renderRequest (env (host (runtime w))) (originalUrl req)) (runtime w))
    as (appHtml & rt & Hrender).
  destruct (ssrHandler_renders srv req w template appHtml _ rt Htemplate Hmodule Hurl Hrender)
    as (events & Hrun & Hquiet).
  exists appHtml, events, rt. now repeat split.
Qed.

(** C1, as the code has it.  A failure inside [render], the rejection of a
    route loader included, does not pass [render]: when the shell and the
    server entry module are obtained and the request URL parses, whatever
    the routing library's request handler does, [render] returns an HTML
    string, so the handler of the Express route answers with status 200
    and the shell in which the placeholder is replaced by that string, and
    its own [catch] branch, the one that answers 500, is not entered.
    When the failure leaves the request handler as an exception, [render]
    catches and logs it, and the string is the fragment
    [<div><h1>Server Error</h1><pre>...</pre></div>] embedding the error's
    diagnostic text (its stack, or its string form). *)
Theorem loader_rejection_is_caught_by_render
    (renderToString : Node -> string)
    (createRequestHandler :
       Request -> M Runtime Router -> (Router -> M Runtime WebResponse) -> M Runtime WebResponse)
    (srv : Server) (req : ExpressRequest) (w : World) (template : string) :
  templateOf srv (originalUrl req) w = Some template ->
  moduleOf srv = Normal {| render := EntryServer.render renderToString createRequestHandler |} ->
  parseURL (host (runtime w)) (requestInput (env (host (runtime w))) (originalUrl req))
  = UrlAccepted ->
  exists appHtml w',
    ssrHandler srv req w
    = (Normal {| statusCode := 200; contentType := "text/html";
                 sent := JsString.replace template placeholder appHtml |}, w')
    /\ forallb (fun e => negb (isConsoleError e)) (eventsOf (ssrHandler srv req) w) = true
    /\ forall error rt,
         createRequestHandler (renderRequest (env (host (runtime w))) (originalUrl req))
           getRouter (EntryServer.renderCallback renderToString) (runtime w)
         = (Throw error, rt) ->
         appHtml = "<div><h1>Server Error</h1><pre>" +:+ diagnosticText error
                   +:+ "</pre></div>"
         /\ console (host (runtime w'))
            = console (host rt) ++ [("Error during SSR render:", error)].
Proof.
  intros Htemplate Hmodule Hurl.
  destruct (ssrHandler_200_whatever_render_meets renderToString createRequestHandler
              srv req w template Htemplate Hmodule Hurl)
    as (appHtml & events & rt' & Hrender & Hrun & Hquiet).
  exists appHtml. eexists. split; [exact Hrun |]. split.
  - erewrite eventsOf_app; [exact Hquiet | now rewrite Hrun].
  - intros error rt Hthrow.
    rewrite (render_catches _ _ _ _ _ _ Hthrow) in Hrender.
    injection Hrender as <- <-. split; reflexivity.
Qed.

Lemma loader_rejection_witness :
  templateOf (serverRendering staticMarkup (escapingHandler sampleNotFound))
    "/repos/doesnotexist123" (sampleWorld (Some "production"))
  = Some sampleShell
  /\ parseURL (sampleHost (Some "production")) "http://localhost:3000/repos/doesnotexist123"
     = UrlAccepted
  /\ exists w',
       ssrHandler (serverRendering staticMarkup (escapingHandler sampleNotFound))
         (get "/repos/doesnotexist123") (sampleWorld (Some "production"))
       = (Normal {| statusCode := 200; contentType := "text/html";
                    sent := JsString.replace sampleShell placeholder
                              ("<div><h1>Server Error</h1><pre>"
                               +:+ diagnosticText sampleNotFound +:+ "</pre></div>") |}, w').
Proof.
  split; [reflexivity |]. split; [reflexivity |].
  destruct (loader_rejection_is_caught_by_render staticMarkup (escapingHandler sampleNotFound)
              (serverRendering staticMarkup (escapingHandler sampleNotFound))
              (get "/repos/doesnotexist123")
              (sampleWorld (Some "production")) sampleShell eq_refl eq_refl eq_refl)
    as (appHtml & w' & Hrun & _ & Hcaught).
  destruct (Hcaught sampleNotFound (runtime (sampleWorld (Some "production"))) eq_refl)
    as [-> _].
  exists w'. exact Hrun.
Defined.

(** C1, counterexample.  The external API answers 404 for the user
    [doesnotexist123] and the repository query rejects with the not-found
    error; whatever the routing library's request handler does with that
    rejection, the Express handler answers the request for
    [/repos/doesnotexist123] with status 200, not 500, and its own [catch]
    branch logs nothing; when the rejection leaves the request handler as
    an exception, the body is the shell around the error fragment of
    [render]. *)
Lemma rejected_loader_is_answered_200 :
  fst (queryFn (userReposQuery "doesnotexist123") (sampleHost (Some "production")))
  = Throw sampleNotFound
  /\ (forall renderToString createRequestHandler,
        exists body w',
          ssrHandler (serverRendering renderToString createRequestHandler)
            (get "/repos/doesnotexist123") (sampleWorld (Some "production"))
          = (Normal {| statusCode := 200; contentType := "text/html"; sent := body |}, w')
          /\ existsb isConsoleError (io w') = false)
  /\ exists body w',
       ssrHandler (serverRendering staticMarkup (escapingHandler sampleNotFound))
         (get "/repos/doesnotexist123") (sampleWorld (Some "production"))
       = (Normal {| statusCode := 200; contentType := "text/html"; sent := body |}, w')
       /\ JsString.includes
            ("<div><h1>Server Error</h1><pre>" +:+ diagnosticText sampleNotFound) body = true.
Proof.
  split; [vm_compute; reflexivity |]. split.
  - intros renderToString createRequestHandler.
    destruct (ssrHandler_200_whatever_render_meets renderToString createRequestHandler
                (serverRendering renderToString createRequestHandler)
                (get "/repos/doesnotexist123") (sampleWorld (Some "production"))
                sampleShell eq_refl eq_refl eq_refl)
      as (appHtml & events & rt & _ & Hrun & Hquiet).
    do 2 eexists. split; [exact Hrun |].
    cbn [io sampleWorld List.app]. clear Hrun.
    induction events as [| e events IH]; [reflexivity |].
    cbn in Hquiet |- *. apply andb_prop in Hquiet as [He Hrest].
    rewrite (IH Hrest). now destruct (isConsoleError e).
  - eexists. eexists. split; vm_compute; reflexivity.
Qed.

(** ** Substituting the placeholder *)

Lemma replace_placeholder (before after fragment : string) :
  JsString.includes placeholder before = false ->
  JsString.includes placeholder after = false ->
  delimitedFragment fragment ->
  JsString.replace (before +:+ placeholder +:+ after) placeholder fragment
  = before +:+ fragment +:+ after
  /\ JsString.includes placeholder (before +:+ fragment +:+ after) = false.
Proof.
  intros Hbefore Hafter (Hfirst & Hlast & Hfree & Hplain). split.
  - unfold JsString.replace, placeholder in *.
    rewrite splitFirst_append by (reflexivity || assumption).
    now rewrite GetSubstitution_plain.
  - unfold placeholder in *.
    now apply (includes_sandwich "<" ">" "!--app-html-->").
Qed.

(** C7, as the code has it.  For every request path matching the static
    route [/], when the shell holds the placeholder [<!--app-html-->]
    exactly once, the server entry module is loaded and the request URL
    parses, the handler answers with status 200 and the shell in which the
    placeholder has been substituted by the rendered fragment; the
    placeholder no longer occurs in the document, the fragment being
    markup that begins with [<], ends with [>] and holds neither the
    placeholder nor a replacement pattern. *)
Theorem static_route_is_rendered_into_shell
    (renderToString : Node -> string) (srv : Server) (req : ExpressRequest) (w : World)
    (before after : string) :
  let request := renderRequest (env (host (runtime w))) (originalUrl req) in
  let fragment := renderToString (RootLayout (NODE_ENV (env (host (runtime w)))) HomePage) in
  matchRoute (pathnameOf (url request)) = IndexRoute ->
  templateOf srv (originalUrl req) w = Some (before +:+ placeholder +:+ after) ->
  JsString.includes placeholder before = false ->
  JsString.includes placeholder after = false ->
  moduleOf srv = Normal {| render := EntryServer.render renderToString tanstackRequestHandler |} ->
  parseURL (host (runtime w)) (requestInput (env (host (runtime w))) (originalUrl req))
  = UrlAccepted ->
  delimitedFragment fragment ->
  exists w',
    ssrHandler srv req w
    = (Normal {| statusCode := 200; contentType := "text/html";
                 sent := before +:+ fragment +:+ after |}, w')
    /\ JsString.includes placeholder (before +:+ fragment +:+ after) = false.
Proof.
  intros request fragment Hroute Htemplate Hbefore Hafter Hmodule Hurl Hfragment.
  destruct (replace_placeholder before after fragment Hbefore Hafter Hfragment)
    as [Hreplace Hfree].
  assert (Hrender : exists rt,
             EntryServer.render renderToString tanstackRequestHandler request (runtime w)
             = (Normal fragment, rt)).
  { destruct (runtime w) as [cs h n] eqn:Hrt. subst fragment. cbn [host] in *.
    rewrite render_run. cbv zeta. rewrite Hroute. eauto. }
  destruct Hrender as (rt & Hrender).
  destruct (ssrHandler_renders srv req w _ fragment _ rt Htemplate Hmodule Hurl Hrender)
    as (events & Hrun & _).
  rewrite Hreplace in Hrun. eauto.
Qed.

Lemma static_route_witness :
  matchRoute (pathnameOf "http://localhost:3000/") = IndexRoute
  /\ templateOf productionServer "/" (sampleWorld (Some "production"))
     = Some ("<!DOCTYPE html><html><head></head><body><div id=root>" +:+ placeholder
             +:+ "</div></body></html>")
  /\ delimitedFragment (staticMarkup (RootLayout (Some "production") HomePage))
  /\ exists w',
       ssrHandler productionServer (get "/") (sampleWorld (Some "production"))
       = (Normal {| statusCode := 200; contentType := "text/html";
                    sent := "<!DOCTYPE html><html><head></head><body><div id=root>"
                            +:+ staticMarkup (RootLayout (Some "production") HomePage)
                            +:+ "</div></body></html>" |}, w')
       /\ JsString.includes placeholder
            ("<!DOCTYPE html><html><head></head><body><div id=root>"
             +:+ staticMarkup (RootLayout (Some "production") HomePage)
             +:+ "</div></body></html>") = false.
Proof.
  assert (Hfragment : delimitedFragment (staticMarkup (RootLayout (Some "production") HomePage))).
  { repeat split; vm_compute; reflexivity. }
  split; [reflexivity |]. split; [reflexivity |]. split; [exact Hfragment |].
  apply (static_route_is_rendered_into_shell staticMarkup productionServer (get "/")
           (sampleWorld (Some "production"))
           "<!DOCTYPE html><html><head></head><body><div id=root>"
           "</div></body></html>").
  - reflexivity.
  - reflexivity.
  - reflexivity.
  - reflexivity.
  - reflexivity.
  - reflexivity.
  - exact Hfragment.
Defined.

(** C7, counterexample.  The path [/] matches the static index route, and
    yet, whatever the rendering library and the routing library do: with a
    shell that holds the placeholder twice the document sent with status
    200 still holds the placeholder, and with [PORT=99999] the request URL
    does not parse and the answer is 500. *)
Lemma static_route_document_keeps_placeholder :
  matchRoute (pathnameOf "http://localhost:3000/") = IndexRoute
  /\ (forall renderToString createRequestHandler,
        exists body w',
          ssrHandler (serverRendering renderToString createRequestHandler)
            (get "/") doubleShellWorld
          = (Normal {| statusCode := 200; contentType := "text/html"; sent := body |}, w')
          /\ JsString.Occurs placeholder body)
  /\ (forall renderToString createRequestHandler,
        exists body w',
          ssrHandler (serverRendering renderToString createRequestHandler)
            (get "/") farPortWorld
          = (Normal {| statusCode := 500; contentType := "text/html"; sent := body |}, w')).
Proof.
  split; [reflexivity |]. split.
  - intros renderToString createRequestHandler.
    destruct (ssrHandler_200_whatever_render_meets renderToString createRequestHandler
                (serverRendering renderToString createRequestHandler)
                (get "/") doubleShellWorld
                "<main><!--app-html--></main><!--app-html-->" eq_refl eq_refl eq_refl)
      as (appHtml & events & rt & _ & Hrun & _).
    do 2 eexists. split; [exact Hrun |].
    unfold JsString.replace.
    change (JsString.splitFirst placeholder "<main><!--app-html--></main><!--app-html-->")
      with (Some ("<main>", "</main><!--app-html-->")).
    apply Occurs_append_r, Occurs_append_r.
    exists "</main>", EmptyString. reflexivity.
  - intros renderToString createRequestHandler.
    destruct (ssrHandler_rejects_url
                (serverRendering renderToString createRequestHandler)
                (get "/") farPortWorld sampleShell
                "Failed to parse URL from http://localhost:99999/"
                {| render := EntryServer.render renderToString createRequestHandler |}
                eq_refl eq_refl eq_refl)
      as (events & Hrun & _).
    do 2 eexists. exact Hrun.
Qed.

(** Only the first occurrence of the placeholder is replaced, and the
    replacement patterns of the fragment are expanded. *)
Example replace_first_occurrence_only :
  JsString.replace "<p><!--app-html--></p><!--app-html-->" placeholder "<b>hi</b>"
  = "<p><b>hi</b></p><!--app-html-->".
Proof. reflexivity. Qed.

Example replace_expands_patterns :
  JsString.replace "<p><!--app-html--></p>" placeholder "<code>a $& b</code>"
  = "<p><code>a <!--app-html--> b</code></p>".
Proof. reflexivity. Qed.

(* ===================================================================== *)
(** * Part III: further properties of the program                         *)
(* ===================================================================== *)

(** ** The SSR handler *)

(** X1.  The handler never lets an exception escape and never writes to
    the disk: every request is answered, with status 200 or 500 and content
    type [text/html]. *)
Theorem handler_always_answers (srv : Server) (req : ExpressRequest) (w : World) :
  exists response w',
    ssrHandler srv req w = (Normal response, w')
    /\ files w' = files w
    /\ (statusCode response = 200 \/ statusCode response = 500)
    /\ contentType response = "text/html".
Proof.
  destruct (ssrHandler_completes srv req w)
    as (response & events & rt & Hrun & _ & _ & Hstatus & Htype).
  exists response. eexists. split; [exact Hrun |]. repeat split; assumption.
Qed.

(** X2.  An answer with status 500 is the error page around the diagnostic
    text of the exception caught, inserted as it is; the exception is
    logged once, as the last thing the handler does. *)
Theorem internal_error_page_reports_the_error
    (srv : Server) (req : ExpressRequest) (w w' : World) (response : Response) :
  ssrHandler srv req w = (Normal response, w') ->
  statusCode response = 500 ->
  exists error events,
    sent response = errorPage (diagnosticText error)
    /\ JsString.Occurs (diagnosticText error) (sent response)
    /\ io w' = io w ++ events ++ [ConsoleError "Error during SSR:" error]
    /\ forallb (fun e => negb (isConsoleError e)) events = true.
Proof.
  intros Hrun Hstatus.
  handler_cases srv req w H; rewrite H in Hrun; injection Hrun as <- <-;
    try discriminate Hstatus;
    match type of H with context [?ev ++ [ConsoleError _ ?e]] => exists e, ev end;
    cbn [sent io];
    (split; [reflexivity |]);
    (split; [unfold errorPage; eexists; eexists; reflexivity |]);
    (split; [reflexivity | reflexivity]).
Qed.

Lemma internal_error_page_witness :
  exists error events,
    sent (match fst (ssrHandler productionServer (get "/") emptyDiskWorld) with
          | Normal response => response
          | Throw _ => {| statusCode := 0; contentType := EmptyString; sent := EmptyString |}
          end)
    = errorPage (diagnosticText error)
    /\ io (snd (ssrHandler productionServer (get "/") emptyDiskWorld))
       = io emptyDiskWorld ++ events ++ [ConsoleError "Error during SSR:" error].
Proof.
  destruct (internal_error_page_reports_the_error productionServer (get "/") emptyDiskWorld
              (snd (ssrHandler productionServer (get "/") emptyDiskWorld))
              (match fst (ssrHandler productionServer (get "/") emptyDiskWorld) with
               | Normal response => response
               | Throw _ => {| statusCode := 0; contentType := EmptyString;
                               sent := EmptyString |}
               end))
    as (error & events & Hsent & _ & Hio & _).
  - vm_compute. reflexivity.
  - vm_compute. reflexivity.
  - exists error, events. split; assumption.
Defined.

(** X3.  When the shell of the mode is not on the disk, the handler
    answers 500 with the page of Node's [ENOENT] error for that path; no
    module is loaded, [render] is not called, and the rendering runtime is
    left as it was. *)
Theorem missing_shell_answers_500 (srv : Server) (req : ExpressRequest) (w : World) :
  files w !! shellPath srv = None ->
  ssrHandler srv req w
  = (Normal {| statusCode := 500; contentType := "text/html";
               sent := errorPage
                         (stackOf (host (runtime w)) "Error"
                            ("ENOENT: no such file or directory, open '"
                             +:+ shellPath srv +:+ "'")) |},
     {| files := files w;
        io := io w ++ [ReadFile (shellPath srv);
                       ConsoleError "Error during SSR:"
                         (enoent (host (runtime w)) (shellPath srv))];
        runtime := runtime w |}).
Proof.
  unfold shellPath. intros Hmissing.
  rewrite ssrHandler_cases. cbv zeta.
  destruct (if isProd srv then None else vite srv); now rewrite Hmissing.
Qed.

Lemma missing_shell_witness :
  files emptyDiskWorld !! shellPath developmentServer = None
  /\ statusCode (match fst (ssrHandler developmentServer (get "/") emptyDiskWorld) with
                 | Normal response => response
                 | Throw _ => {| statusCode := 0; contentType := EmptyString;
                                 sent := EmptyString |}
                 end) = 500.
Proof.
  split; [reflexivity |].
  rewrite (missing_shell_answers_500 developmentServer (get "/") emptyDiskWorld eq_refl).
  reflexivity.
Defined.

(** X4.  [render] is called exactly once, with the synthesized request,
    when the template and the server entry module have been obtained and
    [new Request] has accepted the URL built for it, and is not called at
    all otherwise (missing shell, failed Vite transform, failed module
    load, URL that does not parse). *)
Theorem render_called_once_after_loading (srv : Server) (req : ExpressRequest) (w : World) :
  renderInputs (eventsOf (ssrHandler srv req) w)
  = match templateOf srv (originalUrl req) w, moduleOf srv,
          parseURL (host (runtime w))
                   (requestInput (env (host (runtime w))) (originalUrl req)) with
    | Some _, Normal _, UrlAccepted =>
        [renderRequest (env (host (runtime w))) (originalUrl req)]
    | _, _, _ => []
    end.
Proof.
  unfold templateOf, moduleOf, shellPath.
  handler_cases srv req w H;
    (erewrite eventsOf_app; [| rewrite H; reflexivity]); reflexivity.
Qed.

(** ** Substitution into the shell *)

Lemma replace_absent (s pattern replacement : string) :
  JsString.includes pattern s = false -> JsString.replace s pattern replacement = s.
Proof.
  unfold JsString.includes, JsString.replace.
  now destruct (JsString.splitFirst pattern s) as [[before after] |].
Qed.

(** A plain text that does not end with a dollar sign is copied, and the
    expansion goes on behind it. *)
Lemma GetSubstitution_plain_prefix (matched before after x rest : string) :
  JsString.plainReplacement x = true ->
  JsString.lastChar x <> Some "$"%char ->
  JsString.GetSubstitution matched before after (x +:+ rest)
  = x +:+ JsString.GetSubstitution matched before after rest.
Proof.
  induction x as [| c x IH]; intros Hplain Hlast; [reflexivity |].
  change (String c x +:+ rest) with (String c (x +:+ rest)).
  cbn [JsString.GetSubstitution JsString.plainReplacement] in Hplain |- *.
  destruct (Ascii.eqb c "$") eqn:Hc.
  - destruct x as [| d x'].
    + apply Ascii.eqb_eq in Hc as ->. now contradiction Hlast.
    + change (String d x' +:+ rest) with (String d (x' +:+ rest)).
      apply andb_prop in Hplain as [Hd Hrest].
      apply negb_true_iff in Hd.
      apply orb_false_elim in Hd as [Hd H4]. apply orb_false_elim in Hd as [Hd H3].
      apply orb_false_elim in Hd as [H1 H2].
      rewrite H1, H2, H3, H4.
      change (String c (String d x') +:+ JsString.GetSubstitution matched before after rest)
        with (String c (String d x' +:+ JsString.GetSubstitution matched before after rest)).
      f_equal. apply IH; [exact Hrest | exact Hlast].
  - change (String c x +:+ JsString.GetSubstitution matched before after rest)
      with (String c (x +:+ JsString.GetSubstitution matched before after rest)).
    f_equal. apply IH; [exact Hplain |].
    destruct x; [discriminate | exact Hlast].
Qed.

(** X5.  When the template holds no placeholder, the handler still answers
    200, the request URL parsing, and sends the template unchanged: the
    rendered HTML is dropped. *)
Theorem shell_without_placeholder_is_sent_unchanged
    (srv : Server) (req : ExpressRequest) (w : World)
    (template appHtml : string) (m : SsrModule) (rt : Runtime) :
  templateOf srv (originalUrl req) w = Some template ->
  JsString.includes placeholder template = false ->
  moduleOf srv = Normal m ->
  parseURL (host (runtime w)) (requestInput (env (host (runtime w))) (originalUrl req))
  = UrlAccepted ->
  render m (renderRequest (env (host (runtime w))) (originalUrl req)) (runtime w)
  = (Normal appHtml, rt) ->
  fst (ssrHandler srv req w)
  = Normal {| statusCode := 200; contentType := "text/html"; sent := template |}.
Proof.
  intros Htemplate Habsent Hmodule Hurl Hrender.
  destruct (ssrHandler_renders srv req w template appHtml m rt Htemplate Hmodule Hurl Hrender)
    as (events & Hrun & _).
  rewrite Hrun. cbn. now rewrite replace_absent.
Qed.

Lemma shell_without_placeholder_witness :
  JsString.includes placeholder "<html><body>static</body></html>" = false
  /\ fst (ssrHandler productionServer (get "/") plainShellWorld)
     = Normal {| statusCode := 200; contentType := "text/html";
                 sent := "<html><body>static</body></html>" |}.
Proof.
  split; [reflexivity |].
  eapply (shell_without_placeholder_is_sent_unchanged productionServer (get "/")
            plainShellWorld "<html><body>static</body></html>").
  - reflexivity.
  - reflexivity.
  - reflexivity.
  - reflexivity.
  - vm_compute. reflexivity.
Defined.

(** X6.  Only the first occurrence of the placeholder is replaced: with a
    request URL that parses and a rendered HTML free of replacement
    patterns, the document sent is the
    text before the first placeholder, the rendered HTML, and the text
    after it as it is, so that a second placeholder in the shell stays in
    the document. *)
Theorem only_first_placeholder_is_replaced
    (srv : Server) (req : ExpressRequest) (w : World)
    (before after appHtml : string) (m : SsrModule) (rt : Runtime) :
  templateOf srv (originalUrl req) w = Some (before +:+ placeholder +:+ after) ->
  JsString.includes placeholder before = false ->
  JsString.plainReplacement appHtml = true ->
  moduleOf srv = Normal m ->
  parseURL (host (runtime w)) (requestInput (env (host (runtime w))) (originalUrl req))
  = UrlAccepted ->
  render m (renderRequest (env (host (runtime w))) (originalUrl req)) (runtime w)
  = (Normal appHtml, rt) ->
  fst (ssrHandler srv req w)
  = Normal {| statusCode := 200; contentType := "text/html";
              sent := before +:+ appHtml +:+ after |}
  /\ (JsString.Occurs placeholder after ->
      JsString.Occurs placeholder (before +:+ appHtml +:+ after)).
Proof.
  intros Htemplate Hbefore Hplain Hmodule Hurl Hrender.
  destruct (ssrHandler_renders srv req w _ appHtml m rt Htemplate Hmodule Hurl Hrender)
    as (events & Hrun & _).
  split.
  - rewrite Hrun. cbn [fst]. unfold JsString.replace, placeholder in *.
    rewrite splitFirst_append by (reflexivity || assumption).
    now rewrite GetSubstitution_plain.
  - intros Hafter. now apply Occurs_append_r, Occurs_append_r.
Qed.

Lemma only_first_placeholder_witness :
  templateOf productionServer "/" doubleShellWorld
  = Some ("<main>" +:+ placeholder +:+ "</main><!--app-html-->")
  /\ JsString.Occurs placeholder
       (match fst (ssrHandler productionServer (get "/") doubleShellWorld) with
        | Normal response => sent response
        | Throw _ => EmptyString
        end).
Proof.
  split; [reflexivity |].
  destruct (only_first_placeholder_is_replaced productionServer (get "/") doubleShellWorld
              "<main>" "</main><!--app-html-->"
              (staticMarkup (RootLayout (Some "production") HomePage))
              sampleModule
              (snd (render sampleModule (requestOf "http://localhost:3000/")
                      (runtime doubleShellWorld))))
    as [Hsent Hstays].
  - reflexivity.
  - reflexivity.
  - vm_compute. reflexivity.
  - reflexivity.
  - reflexivity.
  - vm_compute. reflexivity.
  - rewrite Hsent. cbn [sent]. apply Hstays.
    now exists "</main>", EmptyString.
Defined.

(** X7.  The rendered HTML is used as a replacement text: where it holds
    the pattern [$&], the placeholder itself is inserted into the document
    in its place, for a request whose URL parses. *)
Theorem replacement_pattern_is_expanded
    (srv : Server) (req : ExpressRequest) (w : World)
    (before after x y : string) (m : SsrModule) (rt : Runtime) :
  templateOf srv (originalUrl req) w = Some (before +:+ placeholder +:+ after) ->
  JsString.includes placeholder before = false ->
  JsString.plainReplacement x = true ->
  JsString.lastChar x <> Some "$"%char ->
  moduleOf srv = Normal m ->
  parseURL (host (runtime w)) (requestInput (env (host (runtime w))) (originalUrl req))
  = UrlAccepted ->
  render m (renderRequest (env (host (runtime w))) (originalUrl req)) (runtime w)
  = (Normal (x +:+ "$&" +:+ y), rt) ->
  fst (ssrHandler srv req w)
  = Normal {| statusCode := 200; contentType := "text/html";
              sent := before +:+ (x +:+ placeholder
                                  +:+ JsString.GetSubstitution placeholder before after y)
                      +:+ after |}.
Proof.
  intros Htemplate Hbefore Hplain Hlast Hmodule Hurl Hrender.
  destruct (ssrHandler_renders srv req w _ _ m rt Htemplate Hmodule Hurl Hrender)
    as (events & Hrun & _).
  rewrite Hrun. cbn [fst]. unfold JsString.replace.
  replace (JsString.splitFirst placeholder (before +:+ placeholder +:+ after))
    with (Some (before, after)).
  - now rewrite GetSubstitution_plain_prefix.
  - symmetry. unfold placeholder in *. now apply splitFirst_append.
Qed.

Lemma replacement_pattern_witness :
  templateOf patternServer "/" (sampleWorld (Some "production"))
  = Some ("<!DOCTYPE html><html><head></head><body><div id=root>" +:+ placeholder
          +:+ "</div></body></html>")
  /\ fst (ssrHandler patternServer (get "/") (sampleWorld (Some "production")))
     = Normal {| statusCode := 200; contentType := "text/html";
                 sent := "<!DOCTYPE html><html><head></head><body><div id=root>"
                         +:+ "<code>a <!--app-html--> b</code>"
                         +:+ "</div></body></html>" |}.
Proof.
  split; [reflexivity |].
  rewrite (replacement_pattern_is_expanded patternServer (get "/")
             (sampleWorld (Some "production"))
             "<!DOCTYPE html><html><head></head><body><div id=root>"
             "</div></body></html>" "<code>a " " b</code>"
             {| render := fun _ => ret "<code>a $& b</code>" |}
             (runtime (sampleWorld (Some "production")))).
  - reflexivity.
  - reflexivity.
  - reflexivity.
  - reflexivity.
  - discriminate.
  - reflexivity.
  - reflexivity.
  - reflexivity.
Defined.

(** ** The application's stack *)



(** A GET of a file of [dist/client] is answered by the static middleware,
    which reads the file; the SSR handler is not reached. *)
Example static_asset_is_served_by_middleware :
  exists r w',
    dispatch (app assetServer) (get "/index.html") (sampleWorld (Some "production"))
    = (Normal (ByMiddleware r), w')
    /\ sent r = sampleShell
    /\ readsOf (io w') = ["/app/dist/client/index.html"]
    /\ renderInputs (io w') = [].
Proof. do 2 eexists. vm_compute. repeat split. Qed.

(** ** Starting the process *)

Lemma startServer_cases (e : ProcessEnv) (p : Platform) :
  startServer e p
  = if isProdOf e then
      Normal {| server := {| isProd := true; dirname := moduleDirectory p; vite := None;
                             importModule := dynamicImport p;
                             expressStatic := staticMiddleware p |};
                listening := None; startupLog := [] |}
    else
      match createServer p with
      | Throw t => Throw t
      | Normal v =>
          match listen p (portText e) with
          | Throw t => Throw t
          | Normal _ =>
              Normal {| server := {| isProd := false; dirname := moduleDirectory p;
                                     vite := Some v;
                                     importModule := dynamicImport p;
                                     expressStatic := staticMiddleware p |};
                        listening := Some (portText e);
                        startupLog :=
                          [rocket +:+ " Dev SSR server running at http://localhost:"
                           +:+ portText e;
                           package +:+ " Environment: " +:+ environmentName e] |}
          end
      end.
Proof.
  unfold startServer, initializeVite.
  destruct (isProdOf e); cbn; [reflexivity |].
  now destruct (createServer p).
Qed.

(** X9.  What the module body leaves behind.  In production no Vite
    server is created, the process does not listen, and the stack is
    compression, the static assets of [dist/client], the route.  Outside
    production the Vite server is created, the process listens on
    [PORT || 3000], and the stack is compression, the Vite middlewares, the
    route; no static middleware is registered. *)
Theorem startServer_configuration (e : ProcessEnv) (p : Platform) (st : Started) :
  startServer e p = Normal st ->
  if decide (NODE_ENV e = Some "production") then
    vite (server st) = None
    /\ listening st = None
    /\ app (server st)
       = [Use compression;
          Use (staticMiddleware p (moduleDirectory p +:+ "/dist/client"));
          Get "*" (ssrHandler (server st))]
  else
    exists v,
      createServer p = Normal v
      /\ vite (server st) = Some v
      /\ listening st = Some (portText e)
      /\ app (server st)
         = [Use compression; Use (middlewares v); Get "*" (ssrHandler (server st))].
Proof.
  rewrite startServer_cases. unfold isProdOf.
  destruct (decide (NODE_ENV e = Some "production")) as [Hprod | Hdev].
  - rewrite bool_decide_eq_true_2 by exact Hprod. intros [= <-]. repeat split.
  - rewrite bool_decide_eq_false_2 by exact Hdev.
    destruct (createServer p) as [v | error]; [| discriminate].
    destruct (listen p (portText e)); [| discriminate].
    intros [= <-]. exists v. repeat split.
Qed.

Lemma startServer_configuration_witness :
  exists st,
    startServer {| NODE_ENV := None; PORT := Some "8080" |} samplePlatform = Normal st
    /\ vite (server st) = Some sampleVite
    /\ listening st = Some "8080".
Proof.
  eexists. split; [reflexivity |].
  destruct (startServer_configuration {| NODE_ENV := None; PORT := Some "8080" |}
              samplePlatform _ eq_refl) as (v & Hcreate & Hvite & Hlisten & _).
  injection Hcreate as <-. split; assumption.
Defined.

(** X10.  The module body fails exactly when, outside production, Vite's
    [createServer] fails, or the Vite server is created and [app.listen]
    fails for the port [PORT || 3000], and then with that error: in
    production the process always starts, neither being called. *)
Theorem startServer_fails_with_vite (e : ProcessEnv) (p : Platform) (error : Thrown) :
  startServer e p = Throw error
  <-> (NODE_ENV e <> Some "production"
       /\ (createServer p = Throw error
           \/ ((exists v, createServer p = Normal v)
               /\ listen p (portText e) = Throw error))).
Proof.
  rewrite startServer_cases. unfold isProdOf.
  destruct (decide (NODE_ENV e = Some "production")) as [Hprod | Hdev].
  - rewrite bool_decide_eq_true_2 by exact Hprod.
    split; [discriminate | now intros [? _]].
  - rewrite bool_decide_eq_false_2 by exact Hdev.
    destruct (createServer p) as [v | error'].
    + destruct (listen p (portText e)) as [u | error'].
      * split; [discriminate |].
        intros [_ [? | [_ ?]]]; discriminate.
      * split.
        -- intros [= ->]. split; [exact Hdev |]. right. split; [eauto | reflexivity].
        -- intros [_ [? | [_ [= ->]]]]; [discriminate | reflexivity].
    + split.
      * intros [= ->]. split; [exact Hdev |]. now left.
      * intros [_ [[= ->] | [(v & ?) _]]]; [reflexivity | discriminate].
Qed.

(** A process started outside production with [PORT=99999] fails to
    listen; in production the same environment starts. *)
Example startServer_port_out_of_range :
  (exists error,
      startServer {| NODE_ENV := None; PORT := Some "99999" |} samplePlatform
      = Throw (ThrownError error)
      /\ errorName error = "RangeError")
  /\ exists st,
       startServer {| NODE_ENV := Some "production"; PORT := Some "99999" |} samplePlatform
       = Normal st
       /\ listening st = None.
Proof. split; eexists; split; reflexivity. Qed.

(** X11.  After the module body has run, the handler's branch follows the
    mode alone: in production it reads [dist/client/index.html] and imports
    the prebuilt bundle; outside production it reads [index.html] and loads
    [/src/entry-server.tsx] through the Vite server that was created.  A
    process outside production without a Vite handle does not arise. *)
Theorem started_handler_follows_mode (e : ProcessEnv) (p : Platform) (st : Started) :
  startServer e p = Normal st ->
  if decide (NODE_ENV e = Some "production") then
    shellPath (server st) = moduleDirectory p +:+ "/dist/client/index.html"
    /\ moduleOf (server st) = dynamicImport p "./dist/server/entry-server.js"
  else
    shellPath (server st) = moduleDirectory p +:+ "/index.html"
    /\ exists v, createServer p = Normal v
                 /\ moduleOf (server st) = ssrLoadModule v "/src/entry-server.tsx".
Proof.
  rewrite startServer_cases. unfold isProdOf.
  destruct (decide (NODE_ENV e = Some "production")) as [Hprod | Hdev].
  - rewrite bool_decide_eq_true_2 by exact Hprod. intros [= <-]. split; reflexivity.
  - rewrite bool_decide_eq_false_2 by exact Hdev.
    destruct (createServer p) as [v | error]; [| discriminate].
    destruct (listen p (portText e)); [| discriminate].
    intros [= <-]. split; [reflexivity |]. exists v. split; reflexivity.
Qed.

Lemma started_handler_witness :
  exists st,
    startServer {| NODE_ENV := Some "production"; PORT := None |} samplePlatform = Normal st
    /\ shellPath (server st) = "/app/dist/client/index.html".
Proof.
  eexists. split; [reflexivity |].
  exact (proj1 (started_handler_follows_mode
                  {| NODE_ENV := Some "production"; PORT := None |} samplePlatform _ eq_refl)).
Defined.



(** ** [render] and the handler together *)

(** X13.  The status and the headers of the [Response] the request handler
    produces are discarded: [render] returns its body text only, so the
    handler of the Express route, for a request whose URL parses, answers
    200 with that text in the shell whatever status the routing library
    gave the page. *)
Theorem handler_status_is_discarded
    (renderToString : Node -> string)
    (createRequestHandler :
       Request -> M Runtime Router -> (Router -> M Runtime WebResponse) -> M Runtime WebResponse)
    (srv : Server) (req : ExpressRequest) (w : World)
    (template : string) (response : WebResponse) (rt : Runtime) :
  templateOf srv (originalUrl req) w = Some template ->
  moduleOf srv = Normal {| render := EntryServer.render renderToString createRequestHandler |} ->
  parseURL (host (runtime w)) (requestInput (env (host (runtime w))) (originalUrl req))
  = UrlAccepted ->
  createRequestHandler (renderRequest (env (host (runtime w))) (originalUrl req))
    getRouter (EntryServer.renderCallback renderToString) (runtime w)
  = (Normal response, rt) ->
  exists events,
    ssrHandler srv req w
    = (Normal {| statusCode := 200; contentType := "text/html";
                 sent := JsString.replace template placeholder (responseBody response) |},
       {| files := files w; io := io w ++ events; runtime := rt |}).
Proof.
  intros Htemplate Hmodule Hurl Hhandler.
  assert (Hrender :
            EntryServer.render renderToString createRequestHandler
              (renderRequest (env (host (runtime w))) (originalUrl req)) (runtime w)
            = (Normal (responseBody response), rt)).
  { unfold EntryServer.render, tryCatch, bind. now rewrite Hhandler. }
  destruct (ssrHandler_renders srv req w template _ _ rt Htemplate Hmodule Hurl Hrender)
    as (events & Hrun & _).
  eauto.
Qed.

Lemma handler_status_witness :
  exists events,
    ssrHandler
      {| isProd := true; dirname := "/app"; vite := None;
         importModule := fun _ =>
           Normal {| render :=
                       EntryServer.render staticMarkup
                         (fun _ _ _ =>
                            ret {| responseBody := "<p>Not Found</p>";
                                   responseStatus := 404;
                                   responseHeaders := [] |}) |};
         expressStatic := fun _ _ => ret None |}
      (get "/nowhere") (sampleWorld (Some "production"))
    = (Normal {| statusCode := 200; contentType := "text/html";
                 sent := JsString.replace sampleShell placeholder "<p>Not Found</p>" |},
       {| files := files (sampleWorld (Some "production"));
          io := io (sampleWorld (Some "production")) ++ events;
          runtime := runtime (sampleWorld (Some "production")) |}).
Proof.
  apply (handler_status_is_discarded staticMarkup
           (fun _ _ _ => ret {| responseBody := "<p>Not Found</p>";
                                responseStatus := 404;
                                responseHeaders := [] |})
           _ (get "/nowhere") (sampleWorld (Some "production")) sampleShell
           {| responseBody := "<p>Not Found</p>"; responseStatus := 404;
              responseHeaders := [] |});
    reflexivity.
Defined.

(** ** The repository query, continued *)

(** X14.  Whatever the outcome, [queryFn] calls [fetch] exactly once, on
    [https://api.github.com/users/<username>/repos] with the user name
    inserted as it is; a failure is logged once, labelled with the user
    name, and rethrown unchanged; a success logs nothing. *)
Theorem queryFn_fetches_once_and_logs_failures (username : string) (h : Host) :
  let outcome := fst (queryFn (userReposQuery username) h) in
  let h' := snd (queryFn (userReposQuery username) h) in
  fetched h' = fetched h ++ [reposUrl username]
  /\ console h' = console h
                  ++ match outcome with
                     | Throw error => [(queryLogLabel username, error)]
                     | Normal _ => []
                     end
  /\ network h' = network h.
Proof.
  cbv zeta. rewrite queryFn_cases. cbv zeta. unfold reposUrl, queryLogLabel.
  destruct (network h _) as [response | msg].
  - destruct (ok response).
    + destruct (json response); cbn; rewrite ?app_nil_r; repeat split.
    + destruct (status response =? 404); cbn; repeat split.
  - cbn. repeat split.
Qed.

(** X15.  Failures that are not answers of the API keep their own error:
    when [fetch] rejects, its [TypeError] is what [queryFn] throws; when a
    success status comes with a body that is not JSON, the [SyntaxError] of
    [response.json()] is what it throws, not the generic failure message. *)
Theorem queryFn_transport_failures (username : string) (h : Host) :
  (forall msg,
      network h (reposUrl username) = Rejected msg ->
      fst (queryFn (userReposQuery username) h)
      = Throw (ThrownError {| errorName := "TypeError"; message := msg;
                              stack := stackOf h "TypeError" msg |}))
  /\ (forall response msg,
        network h (reposUrl username) = Resolved response ->
        ok response = true ->
        json response = Malformed msg ->
        fst (queryFn (userReposQuery username) h)
        = Throw (ThrownError {| errorName := "SyntaxError"; message := msg;
                                stack := stackOf h "SyntaxError" msg |})).
Proof.
  unfold reposUrl. split.
  - intros msg Hnet. rewrite queryFn_cases. cbv zeta. now rewrite Hnet.
  - intros response msg Hnet Hok Hjson. rewrite queryFn_cases. cbv zeta.
    now rewrite Hnet, Hok, Hjson.
Qed.

Lemma queryFn_transport_witness :
  fst (queryFn (userReposQuery "someone") (sampleHost None))
  = Throw (ThrownError {| errorName := "TypeError"; message := "fetch failed";
                          stack := stackOf (sampleHost None) "TypeError" "fetch failed" |}).
Proof.
  apply (proj1 (queryFn_transport_failures "someone" (sampleHost None))).
  reflexivity.
Defined.

(** ** The repositories page, continued *)

Lemma countElements_cons (tag : string) (x : Node) (xs : list Node) :
  countElements tag (Fragment (x :: xs))
  = (countElements tag x + countElements tag (Fragment xs))%nat.
Proof. reflexivity. Qed.

Lemma hrefs_cons (x : Node) (xs : list Node) :
  hrefs (Fragment (x :: xs)) = hrefs x ++ hrefs (Fragment xs).
Proof. reflexivity. Qed.

Lemma textContent_cons (x : Node) (xs : list Node) :
  textContent (Fragment (x :: xs)) = textContent x +:+ textContent (Fragment xs).
Proof. reflexivity. Qed.

Ltac item_cases repo :=
  unfold RepoItem, whenPresent;
  destruct (description repo) as [d |]; [destruct (String.eqb d EmptyString) eqn:? |];
  (destruct (language repo) as [l |]; [destruct (String.eqb l EmptyString) eqn:? |]).

Lemma RepoItem_counts (formatDate : string -> string) (repo : GitHubRepository) :
  countElements "li" (RepoItem formatDate repo) = 1%nat
  /\ countElements "ul" (RepoItem formatDate repo) = 0%nat
  /\ hrefs (RepoItem formatDate repo) = [html_url repo].
Proof. item_cases repo; repeat split. Qed.

Lemma items_counts (formatDate : string -> string) (repos : list GitHubRepository) :
  countElements "li" (Fragment (map (RepoItem formatDate) repos)) = length repos
  /\ countElements "ul" (Fragment (map (RepoItem formatDate) repos)) = 0%nat
  /\ hrefs (Fragment (map (RepoItem formatDate) repos)) = map html_url repos.
Proof.
  induction repos as [| repo repos (IHli & IHul & IHhref)]; [repeat split |].
  destruct (RepoItem_counts formatDate repo) as (Hli & Hul & Hhref).
  cbn [map]. rewrite !countElements_cons, hrefs_cons.
  rewrite Hli, Hul, Hhref, IHli, IHul, IHhref. repeat split.
Qed.

(** X16.  The page lists every repository once and in order: it holds as
    many [<li>] items as the list has repositories, its links are the
    [html_url] of each repository in the order of the list, and the
    [<ul>] is present exactly when the list is not empty. *)
Theorem ReposPage_lists_every_repository
    (formatDate : string -> string) (username : string) (repos : list GitHubRepository) :
  let page := ReposPageMarkup formatDate username repos in
  countElements "li" page = length repos
  /\ hrefs page = map html_url repos
  /\ countElements "ul" page = (if repos is [] then 0 else 1)%nat.
Proof.
  cbv zeta. unfold ReposPageMarkup.
  destruct (items_counts formatDate repos) as (Hli & Hul & Hhref).
  destruct repos as [| repo repos]; [repeat split |].
  change (Nat.eqb (length (repo :: repos)) 0) with false. cbv iota.
  remember (map (RepoItem formatDate) (repo :: repos)) as items eqn:Hitems.
  assert (Hlist : forall tag,
             countElements tag (Element "ul" [("className", "space-y-4")] items)
             = ((if String.eqb "ul" tag then 1 else 0) + countElements tag (Fragment items))%nat)
    by reflexivity.
  assert (Hlinks : hrefs (Element "ul" [("className", "space-y-4")] items)
                   = hrefs (Fragment items)) by reflexivity.
  remember (Element "ul" [("className", "space-y-4")] items) as list eqn:Hul'.
  cbn -[length]. rewrite !Hlist, Hlinks, Hli, Hul, Hhref. cbn -[length].
  rewrite !Nat.add_0_r, app_nil_r. repeat split.
Qed.

Example ReposPage_lists_sample :
  hrefs (ReposPageMarkup (fun d => d) "tanstack" [sampleRepo; sampleRepoBare])
  = ["https://github.com/octocat/Hello-World"; "https://github.com/octocat/Spoon-Knife"].
Proof. reflexivity. Qed.

Lemma textContent_RepoItem (formatDate : string -> string) (repo : GitHubRepository) :
  textContent (RepoItem formatDate repo) = itemText formatDate repo.
Proof.
  unfold itemText.
  item_cases repo;
    repeat match goal with
           | H : String.eqb _ EmptyString = true |- _ => apply String.eqb_eq in H; subst
           end;
    cbn; rewrite ?append_empty_r, ?append_assoc; reflexivity.
Qed.

Lemma textContent_items (formatDate : string -> string) (repos : list GitHubRepository) :
  textContent (Fragment (map (RepoItem formatDate) repos))
  = concatText (map (itemText formatDate) repos).
Proof.
  induction repos as [| repo repos IH]; [reflexivity |].
  cbn [map concatText]. now rewrite textContent_cons, textContent_RepoItem, IH.
Qed.

(** X17.  What the page shows: the heading with the user name, the count
    with [repository] in the singular for exactly one repository and
    [repositories] otherwise (zero included), and then either the
    empty-state message or, for each repository in order, its name, its
    description and language when it has them, its star count and its
    update date. *)
Theorem ReposPage_text
    (formatDate : string -> string) (username : string) (repos : list GitHubRepository) :
  textContent (ReposPageMarkup formatDate username repos)
  = "Repositories of " +:+ username
    +:+ "Showing " +:+ JsString.ofNat (length repos) +:+ " "
    +:+ (if Nat.eqb (length repos) 1 then "repository" else "repositories")
    +:+ (if repos is []
         then "No public repositories found for this user."
         else concatText (map (itemText formatDate) repos)).
Proof.
  unfold ReposPageMarkup.
  pose proof (textContent_items formatDate repos) as Hitems.
  destruct repos as [| repo repos]; [cbn; now rewrite append_empty_r |].
  change (Nat.eqb (length (repo :: repos)) 0) with false. cbv iota.
  remember (map (RepoItem formatDate) (repo :: repos)) as items eqn:Hi.
  assert (Hlist : textContent (Element "ul" [("className", "space-y-4")] items)
                  = textContent (Fragment items)) by reflexivity.
  remember (Element "ul" [("className", "space-y-4")] items) as list eqn:Hul.
  remember (JsString.ofNat (length (repo :: repos))) as count eqn:Hcount.
  remember (if Nat.eqb (length (repo :: repos)) 1 then "repository" else "repositories")
    as noun eqn:Hnoun.
  cbn -[concatText]. rewrite Hlist, Hitems.
  rewrite ?append_empty_r, ?append_assoc. reflexivity.
Qed.

(** X18.  A repository whose description is [null] or the empty string
    gets no description paragraph, and one whose language is [null] or
    empty gets no language badge; otherwise exactly one of each is
    rendered. *)
Theorem RepoItem_optional_parts (formatDate : string -> string) (repo : GitHubRepository) :
  countElements "p" (RepoItem formatDate repo)
  = (if isPresent (description repo) then 1 else 0)%nat
  /\ countElements "span" (RepoItem formatDate repo)
     = (if isPresent (language repo) then 4 else 2)%nat.
Proof.
  unfold isPresent.
  item_cases repo;
    repeat match goal with
           | H : String.eqb _ EmptyString = _ |- _ => rewrite H
           end;
    split; reflexivity.
Qed.

(** ** The root layout *)

Lemma hasLibrary_RootLayout_devtools (nodeEnv : option string) (outlet : Node) :
  hasLibrary "TanStackRouterDevtools" (RootLayout nodeEnv outlet)
  = hasLibrary "TanStackRouterDevtools" outlet
    || bool_decide (nodeEnv = Some "development").
Proof.
  unfold RootLayout.
  destruct (decide (nodeEnv = Some "development")) as [Hdev | Hdev];
    [rewrite (bool_decide_eq_true_2 _ Hdev) | rewrite (bool_decide_eq_false_2 _ Hdev)];
    cbn; destruct (hasLibrary "TanStackRouterDevtools" outlet); reflexivity.
Qed.

(** X19.  The layout renders the router devtools exactly when [NODE_ENV]
    is the string [development]: not in production, and not either when
    [NODE_ENV] is unset or has any other value, although the process is
    then not in production mode and the handler runs its development
    branch. *)
Theorem RootLayout_devtools (nodeEnv : option string) (outlet : Node) :
  hasLibrary "TanStackRouterDevtools" outlet = false ->
  (hasLibrary "TanStackRouterDevtools" (RootLayout nodeEnv outlet) = true
   <-> nodeEnv = Some "development")
  /\ (nodeEnv <> Some "development" -> nodeEnv <> Some "production" ->
      isProdOf {| NODE_ENV := nodeEnv; PORT := None |} = false
      /\ hasLibrary "TanStackRouterDevtools" (RootLayout nodeEnv outlet) = false).
Proof.
  intros Houtlet. rewrite hasLibrary_RootLayout_devtools, Houtlet. cbn [orb].
  split; [apply bool_decide_eq_true |].
  intros Hdev Hprod. split.
  - unfold isProdOf. cbn. now apply bool_decide_eq_false_2.
  - now apply bool_decide_eq_false_2.
Qed.

Lemma RootLayout_devtools_witness :
  hasLibrary "TanStackRouterDevtools" (RootLayout (Some "development") HomePage) = true
  /\ hasLibrary "TanStackRouterDevtools" (RootLayout None HomePage) = false.
Proof.
  split.
  - now apply (RootLayout_devtools (Some "development") HomePage).
  - apply (RootLayout_devtools None HomePage); [reflexivity | discriminate | discriminate].
Defined.

(** ** One request, end to end *)













